(** * aods: a Makefile and compilation-database generator

    Shallow embedding of [aods.py] and the properties of its build
    configuration ([Context]), object naming, dependency handling and
    artifact emission.

    Python [str] values are modelled by [string]; every character stands
    for the code point of the same number (0..255).  External
    collaborators are explicit: the subprocess runner is an oracle carried
    by [Env], and the filesystem is the state [FS] threaded through the
    effectful operations. *)

From Stdlib Require Import Ascii String List ZArith Lia Bool.
From stdpp Require Import base option list strings gmap.

Set Warnings "-register-all".

Local Open Scope Z_scope.
Local Open Scope nat_scope.

(** ** Python string primitives used by the program *)

Module Py.

Definition LF : ascii := "010"%char.
Definition TAB : ascii := "009"%char.
Definition DQUOTE : ascii := "034"%char.
Definition BACKSLASH : ascii := "092"%char.

Definition nl : string := String LF EmptyString.
Definition tab : string := String TAB EmptyString.

(** [s.split(sep)] for a one-character separator: never an empty list. *)
Fixpoint split (sep : ascii) (s : string) : list string :=
  match s with
  | EmptyString => [EmptyString]
  | String c r =>
      if Ascii.eqb c sep then EmptyString :: split sep r
      else match split sep r with
           | [] => [String c EmptyString]
           | w :: ws => String c w :: ws
           end
  end.

(** [s.rfind(c) + 1]: 0 when [c] does not occur (rfind gives -1). *)
Fixpoint rfind_succ (c : ascii) (s : string) : nat :=
  match s with
  | EmptyString => 0
  | String a r =>
      match rfind_succ c r with
      | 0 => if Ascii.eqb a c then 1 else 0
      | S k => S (S k)
      end
  end.

(** The slice [s[i:]] for [i >= 0]. *)
Fixpoint slice_from (i : nat) (s : string) : string :=
  match i, s with
  | 0, _ => s
  | S _, EmptyString => EmptyString
  | S k, String _ r => slice_from k r
  end.

(** [posixpath.basename]: [i = p.rfind('/') + 1; return p[i:]]. *)
Definition basename (p : string) : string :=
  slice_from (rfind_succ "/"%char p) p.

(** [sep.join(l)]. *)
Definition join (sep : string) (l : list string) : string :=
  String.concat sep l.

(** [str.isspace] on one character, for code points below 256. *)
Definition isspace (c : ascii) : bool :=
  let n := nat_of_ascii c in
  ((9 <=? n) && (n <=? 13)) || ((28 <=? n) && (n <=? 32))
  || (n =? 133) || (n =? 160).

Fixpoint lstrip (s : string) : string :=
  match s with
  | EmptyString => EmptyString
  | String c r => if isspace c then lstrip r else s
  end.

Fixpoint rstrip (s : string) : string :=
  match s with
  | EmptyString => EmptyString
  | String c r =>
      match rstrip r with
      | EmptyString => if isspace c then EmptyString else String c EmptyString
      | r' => String c r'
      end
  end.

(** [s.strip()]. *)
Definition strip (s : string) : string := rstrip (lstrip s).

(** [c in s] for one character. *)
Fixpoint contains (c : ascii) (s : string) : bool :=
  match s with
  | EmptyString => false
  | String a r => Ascii.eqb a c || contains c r
  end.

(** [a != ""] as a boolean. *)
Definition nonempty (s : string) : bool :=
  match s with EmptyString => false | String _ _ => true end.

(** An argument typed [str | list[str]], normalised the way every
    [add_*] method does: [if isinstance(x, str): x = [x]]. *)
Inductive str_or_list : Type :=
| Str (s : string)
| Lst (l : list string).

Definition as_list (x : str_or_list) : list string :=
  match x with
  | Str s => [s]
  | Lst l => l
  end.

End Py.

(** ** Exceptions and the state-and-exception monad *)

Inductive oserror : Type :=
| FileExistsError
| FileNotFoundError
| PermissionError
| IsADirectoryError
| NotADirectoryError.

(** [Exception msg] is the plain [Exception(...)] the program raises;
    [AttributeError] comes from reading a missing attribute and [OSError]
    from the filesystem calls. *)
Inductive exn : Type :=
| Exception (msg : string)
| AttributeError (attr : string)
| OSError (e : oserror) (path : string).

Inductive result (A : Type) : Type :=
| Ok (a : A)
| Raise (e : exn).
Arguments Ok {A} a.
Arguments Raise {A} e.

(** A computation over a mutable state [S]: the state survives an
    exception, as a Python object mutated before a [raise] does. *)
Definition M (S A : Type) : Type := S -> S * result A.

Definition ret {S A} (a : A) : M S A := fun s => (s, Ok a).

Definition bind {S A B} (m : M S A) (k : A -> M S B) : M S B :=
  fun s =>
    match m s with
    | (s', Ok a) => k a s'
    | (s', Raise e) => (s', Raise e)
    end.

Definition gets {S A} (f : S -> A) : M S A := fun s => (s, Ok (f s)).
Definition modify {S} (f : S -> S) : M S unit := fun s => (f s, Ok tt).
Definition lift {S A} (r : result A) : M S A := fun s => (s, r).

(** [try: m except: h] with a bare [except]: every exception is caught. *)
Definition try_except {S A} (m : M S A) (h : M S A) : M S A :=
  fun s =>
    match m s with
    | (s', Ok a) => (s', Ok a)
    | (s', Raise _) => h s'
    end.

Declare Scope py_scope.
Delimit Scope py_scope with py.
Notation "m >>= k" := (bind m k)
  (at level 58, left associativity) : py_scope.
Notation "m >> k" := (bind m (fun _ => k))
  (at level 58, left associativity) : py_scope.

(** [for x in l: body x]. *)
Fixpoint for_each {S A} (l : list A) (body : A -> M S unit) : M S unit :=
  match l with
  | [] => ret tt
  | x :: r => bind (body x) (fun _ => for_each r body)
  end.

(** A list comprehension [[f x for x in l]] whose body may raise. *)
Fixpoint comprehension {A B} (f : A -> result B) (l : list A)
  : result (list B) :=
  match l with
  | [] => Ok []
  | x :: r =>
      match f x with
      | Raise e => Raise e
      | Ok y =>
          match comprehension f r with
          | Raise e => Raise e
          | Ok ys => Ok (y :: ys)
          end
      end
  end.

Local Open Scope py_scope.

(** ** External collaborators *)

(** What [subprocess.run(cmd, capture_output=True, text=True, check=False)]
    hands back for a process that was started. *)
Record CompletedProcess : Type := mkProc {
  returncode : Z;
  stdout : string;
  stderr : string
}.

(** [sys.modules["__main__"].__file__]. *)
Inductive main_attr : Type :=
| NoFileAttr
| FileIsNone
| FilePath (path : string).

(** The environment the program runs in: [run] answers every command
    line, [main_file] is the entry script seen by [root_dir]. *)
Record Env : Type := mkEnv {
  run : list string -> CompletedProcess;
  main_file : main_attr
}.

(** The filesystem.  A location is the list of names that lead from the
    root to an entry, so one entry has one location however a path spells
    it.  The state holds the location of the working directory, the
    directories, the regular files with their contents, and the
    directories in which no entry may be created.  The root and the
    working directory are always there.  Links and permission bits of
    files are not part of it. *)
Record FS : Type := mkFS {
  fs_cwd : list string;
  fs_dirs : gset (list string);
  fs_files : gmap (list string) string;
  fs_readonly : gset (list string)
}.

Module Os.

(** What a path resolves to: a name to look up in a directory that was
    reached ([slash] tells whether the path ends in a slash), or a
    directory reached as such ([.], [..] or the root). *)
Inductive target : Type :=
| Entry (parent : list string) (name : string) (slash : bool)
| Directory (loc : list string).

Inductive resolution (A : Type) : Type :=
| Found (a : A)
| Failed (e : oserror).
Arguments Found {A} a.
Arguments Failed {A} e.

Definition is_dir (fs : FS) (loc : list string) : bool :=
  bool_decide (loc = []) || bool_decide (loc = fs_cwd fs)
  || bool_decide (loc ∈ fs_dirs fs).

Definition is_file (fs : FS) (loc : list string) : bool :=
  bool_decide (is_Some (fs_files fs !! loc)).

(** Going down [names] from the directory [cur]: empty names and [.]
    stay, [..] goes up (the root is its own parent), any other name must
    be a directory. *)
Fixpoint walk (fs : FS) (cur : list string) (names : list string)
  : resolution (list string) :=
  match names with
  | [] => Found cur
  | n :: rest =>
      if String.eqb n "" || String.eqb n "." then walk fs cur rest
      else if String.eqb n ".." then walk fs (List.removelast cur) rest
      else if is_dir fs (cur ++ [n]) then walk fs (cur ++ [n]) rest
      else if is_file fs (cur ++ [n]) then Failed NotADirectoryError
      else Failed FileNotFoundError
  end.

(** Where the resolution of [p] starts. *)
Definition start (fs : FS) (p : string) : list string :=
  match p with
  | String "/" _ => []
  | _ => fs_cwd fs
  end.

(** The names without the empty ones that trailing slashes leave. *)
Fixpoint drop_trailing_empty (names : list string) : list string :=
  match names with
  | [] => []
  | n :: rest =>
      match drop_trailing_empty rest with
      | [] => if String.eqb n "" then [] else [n]
      | rest' => n :: rest'
      end
  end.

(** Path resolution for a call that creates or opens the last name. *)
Definition locate (fs : FS) (p : string) : resolution target :=
  let names := Py.split "/" p in
  let body := drop_trailing_empty names in
  let slash := negb (length body =? length names) in
  match body with
  | [] => Found (Directory [])
  | _ :: _ =>
      match walk fs (start fs p) (List.removelast body) with
      | Failed e => Failed e
      | Found dir =>
          let leaf := List.last body "" in
          if String.eqb leaf "" || String.eqb leaf "."
          then Found (Directory dir)
          else if String.eqb leaf ".."
          then Found (Directory (List.removelast dir))
          else Found (Entry dir leaf slash)
      end
  end.

(** The directory a path names, every name of it taken as a directory. *)
Definition lookup_dir (fs : FS) (p : string) : resolution (list string) :=
  walk fs (start fs p) (Py.split "/" p).

(** [os.path.isdir(p)]. *)
Definition is_directory (fs : FS) (p : string) : bool :=
  if Py.nonempty p
  then match lookup_dir fs p with Found _ => true | Failed _ => false end
  else false.

Definition add_dir (loc : list string) (fs : FS) : FS :=
  mkFS (fs_cwd fs) ({[ loc ]} ∪ fs_dirs fs) (fs_files fs) (fs_readonly fs).

Definition set_file (loc : list string) (text : string) (fs : FS) : FS :=
  mkFS (fs_cwd fs) (fs_dirs fs) (<[ loc := text ]> (fs_files fs))
       (fs_readonly fs).

(** [os.mkdir(p)]: one level, no [exist_ok]. *)
Definition mkdir (p : string) : M FS unit :=
  fun fs =>
    if negb (Py.nonempty p) then (fs, Raise (OSError FileNotFoundError p))
    else
      match locate fs p with
      | Failed e => (fs, Raise (OSError e p))
      | Found (Directory _) => (fs, Raise (OSError FileExistsError p))
      | Found (Entry parent name _) =>
          let loc := parent ++ [name] in
          if is_dir fs loc || is_file fs loc
          then (fs, Raise (OSError FileExistsError p))
          else if bool_decide (parent ∈ fs_readonly fs)
          then (fs, Raise (OSError PermissionError p))
          else (add_dir loc fs, Ok tt)
      end.

(** [open(p, "w")]: creates or truncates the file. *)
Definition open_w (p : string) : M FS unit :=
  fun fs =>
    if negb (Py.nonempty p) then (fs, Raise (OSError FileNotFoundError p))
    else
      match locate fs p with
      | Failed e => (fs, Raise (OSError e p))
      | Found (Directory _) => (fs, Raise (OSError IsADirectoryError p))
      | Found (Entry parent name slash) =>
          let loc := parent ++ [name] in
          if is_dir fs loc then (fs, Raise (OSError IsADirectoryError p))
          else if slash
          then (fs, Raise (OSError (if is_file fs loc then NotADirectoryError
                                    else IsADirectoryError) p))
          else if negb (is_file fs loc)
                  && bool_decide (parent ∈ fs_readonly fs)
          then (fs, Raise (OSError PermissionError p))
          else (set_file loc EmptyString fs, Ok tt)
      end.

(** The location of the regular file that [p] names or would name. *)
Definition key (fs : FS) (p : string) : option (list string) :=
  if Py.nonempty p
  then match locate fs p with
       | Found (Entry parent name false) => Some (parent ++ [name])
       | _ => None
       end
  else None.

(** [f.write(data)] on the file opened at [p]: appended at the end. *)
Definition write (p : string) (data : string) : M FS unit :=
  modify (fun fs =>
    match key fs p with
    | Some loc =>
        set_file loc (default EmptyString (fs_files fs !! loc) +:+ data) fs
    | None => fs
    end).

(** The contents of the file at [p], if there is one. *)
Definition read (fs : FS) (p : string) : option string :=
  match key fs p with
  | Some loc => fs_files fs !! loc
  | None => None
  end.

(** [fs] with [text] as the contents of the file [p] names. *)
Definition put (p : string) (text : string) (fs : FS) : FS :=
  match key fs p with
  | Some loc => set_file loc text fs
  | None => fs
  end.

End Os.

(** ** [json.dumps(data, indent=4)] *)

Module Json.

Inductive value : Type :=
| JString (s : string)
| JArray (items : list value)
| JObject (members : list (string * value)).

Definition hex_digit (n : nat) : ascii :=
  if n <? 10 then ascii_of_nat (48 + n) else ascii_of_nat (87 + n).

(** One character under [ESCAPE_ASCII]: the backslash, the double quote
    and everything outside [' '..'~'] are replaced. *)
Definition escape_char (c : ascii) : string :=
  let n := nat_of_ascii c in
  if Ascii.eqb c Py.BACKSLASH then String Py.BACKSLASH (String Py.BACKSLASH EmptyString)
  else if Ascii.eqb c Py.DQUOTE then String Py.BACKSLASH (String Py.DQUOTE EmptyString)
  else if n =? 8 then String Py.BACKSLASH "b"
  else if n =? 12 then String Py.BACKSLASH "f"
  else if n =? 10 then String Py.BACKSLASH "n"
  else if n =? 13 then String Py.BACKSLASH "r"
  else if n =? 9 then String Py.BACKSLASH "t"
  else if (32 <=? n) && (n <=? 126) then String c EmptyString
  else String Py.BACKSLASH
         ("u00" +:+ String (hex_digit (n / 16))
                      (String (hex_digit (n mod 16)) EmptyString)).

Fixpoint escape (s : string) : string :=
  match s with
  | EmptyString => EmptyString
  | String c r => escape_char c +:+ escape r
  end.

(** [py_encode_basestring_ascii]. *)
Definition encode_basestring_ascii (s : string) : string :=
  String Py.DQUOTE (escape s +:+ String Py.DQUOTE EmptyString).

Fixpoint spaces (n : nat) : string :=
  match n with
  | 0 => EmptyString
  | S k => String " "%char (spaces k)
  end.

(** ['\n' + ' ' * (4 * level)]. *)
Definition newline_indent (level : nat) : string :=
  Py.nl +:+ spaces (4 * level).

Fixpoint iterencode (level : nat) (j : value) : string :=
  match j with
  | JString s => encode_basestring_ascii s
  | JArray [] => "[]"
  | JArray items =>
      "[" +:+ newline_indent (S level)
      +:+ Py.join ("," +:+ newline_indent (S level))
            (List.map (iterencode (S level)) items)
      +:+ newline_indent level +:+ "]"
  | JObject [] => "{}"
  | JObject members =>
      "{" +:+ newline_indent (S level)
      +:+ Py.join ("," +:+ newline_indent (S level))
            (List.map (fun kv => encode_basestring_ascii (fst kv) +:+ ": "
                                 +:+ iterencode (S level) (snd kv)) members)
      +:+ newline_indent level +:+ "}"
  end.

Definition dumps_indent4 (j : value) : string := iterencode 0 j.

End Json.

(** ** The build configuration *)

Record Context : Type := mkContext {
  _sources : list string;
  _includes : list string;
  _dependencies : list string;
  _flags : string;
  _libs : string;
  _name : string;
  _compiler : string;
  _build_dir : string
}.

Definition set_sources (v : list string) (c : Context) : Context :=
  mkContext v (_includes c) (_dependencies c) (_flags c) (_libs c)
            (_name c) (_compiler c) (_build_dir c).
Definition set_includes (v : list string) (c : Context) : Context :=
  mkContext (_sources c) v (_dependencies c) (_flags c) (_libs c)
            (_name c) (_compiler c) (_build_dir c).
Definition set_dependencies (v : list string) (c : Context) : Context :=
  mkContext (_sources c) (_includes c) v (_flags c) (_libs c)
            (_name c) (_compiler c) (_build_dir c).
Definition set_flags (v : string) (c : Context) : Context :=
  mkContext (_sources c) (_includes c) (_dependencies c) v (_libs c)
            (_name c) (_compiler c) (_build_dir c).
Definition set_libs (v : string) (c : Context) : Context :=
  mkContext (_sources c) (_includes c) (_dependencies c) (_flags c) v
            (_name c) (_compiler c) (_build_dir c).
Definition set_build_dir (v : string) (c : Context) : Context :=
  mkContext (_sources c) (_includes c) (_dependencies c) (_flags c) (_libs c)
            (_name c) (_compiler c) v.

(** [make_dir]: [os.mkdir] under a bare [except] that returns. *)
Definition make_dir (dir : string) : M FS unit :=
  try_except (Os.mkdir dir) (ret tt).

(** The [build_dir] setter: [make_dir(value)], then the assignment. *)
Definition build_dir_setter (value : string) (c : Context) : M FS Context :=
  make_dir value >> ret (set_build_dir value c).

(** [Context.__init__]: the empty accumulators, then the three property
    assignments; only the last one has an effect on the filesystem. *)
Definition Context_init (name compiler build_dir : string) : M FS Context :=
  build_dir_setter build_dir
    (mkContext [] [] [] EmptyString EmptyString name compiler EmptyString).

Definition add_source (source : Py.str_or_list) (c : Context) : Context :=
  set_sources (_sources c ++ Py.as_list source) c.

Definition add_include (include : Py.str_or_list) (c : Context) : Context :=
  fold_left (fun c i => set_includes (_includes c ++ [i]) c)
            (Py.as_list include) c.

(** One round of the loop of [add_flag]. *)
Definition add_flag_step (c : Context) (f : string) : Context :=
  let c := if Py.nonempty (_flags c) then set_flags (_flags c +:+ " ") c else c in
  set_flags (_flags c +:+ f) c.

Definition add_flag (flag : Py.str_or_list) (c : Context) : Context :=
  fold_left add_flag_step (Py.as_list flag) c.

Section WithEnv.

Variable env : Env.

Definition pkgconfig_is_installed (pkg : string) : bool :=
  (returncode (run env ["pkg-config"; "--exists"; pkg]) =? 0)%Z.

Definition assert_installed (pkg : string) : result unit :=
  if negb (pkgconfig_is_installed pkg)
  then Raise (Exception ("`" +:+ pkg +:+ "` not installed!"))
  else Ok tt.

Definition pkgconfig_cflags (deps : list string) : result string :=
  let flags := run env (["pkg-config"; "-cflags"] ++ deps) in
  if negb (returncode flags =? 0)%Z
  then Raise (Exception "`pkg-config -cflags` failed")
  else Ok (Py.strip (stdout flags)).

Definition pkgconfig_libs (deps : list string) : result string :=
  let libs := run env (["pkg-config"; "-libs"] ++ deps) in
  if negb (returncode libs =? 0)%Z
  then Raise (Exception "pkg-config -libs failed")
  else Ok (Py.strip (stdout libs)).

Definition add_dependency (dep : Py.str_or_list) : M Context unit :=
  let dep := Py.as_list dep in
  modify (fun c => set_dependencies (_dependencies c ++ dep) c) >>
  for_each dep (fun d => lift (assert_installed d)) >>
  gets _flags >>= fun flags =>
  (if Py.nonempty flags
   then modify (fun c => set_flags (_flags c +:+ " ") c)
   else ret tt) >>
  gets _flags >>= fun flags =>
  lift (pkgconfig_cflags dep) >>= fun cflags =>
  modify (set_flags (flags +:+ cflags)) >>
  gets _libs >>= fun libs0 =>
  lift (pkgconfig_libs dep) >>= fun libs =>
  modify (set_libs (libs0 +:+ libs)).

Definition base_name (name : string) : string :=
  hd EmptyString (Py.split "."%char name).

Definition file_name (path : string) : string := Py.basename path.

Definition object_name (ctx : Context) (source : string) : string :=
  let base := base_name (file_name source) in
  _build_dir ctx +:+ "/" +:+ base +:+ ".o".

(** The [-I] arguments: [[f"-I{i}" for i in ctx._includes]]. *)
Definition include_args (ctx : Context) : list string :=
  List.map (fun i => "-I" +:+ i) (_includes ctx).

(** The command line of the dependency scan of [mk_object]. *)
Definition scan_command (ctx : Context) (source : string) : list string :=
  [_compiler ctx] ++ include_args ctx
    ++ ["-MT"; object_name ctx source; "-MM"; source].

Definition mk_object (ctx : Context) (source : string)
  : result (string * string * string) :=
  let header := run env (scan_command ctx source) in
  if negb (returncode header =? 0)%Z
  then Raise (Exception ("failed making a makefile entry for `" +:+ source
                         +:+ "`:" +:+ Py.nl +:+ stderr header))
  else
    let cmd := _compiler ctx +:+ " -c " +:+ _flags ctx +:+ " "
               +:+ Py.join " " (include_args ctx)
               +:+ " -o " +:+ object_name ctx source +:+ " " +:+ source in
    Ok (stdout header, cmd, source).

Definition mk_executable (ctx : Context) : string * string :=
  let objects := List.map (object_name ctx) (_sources ctx) in
  let header := _build_dir ctx +:+ "/" +:+ _name ctx +:+ ": "
                +:+ Py.join " " objects in
  let cmd := _compiler ctx +:+ " " +:+ _flags ctx +:+ " " +:+ _libs ctx
             +:+ " -o " +:+ (_build_dir ctx +:+ "/" +:+ _name ctx)
             +:+ " " +:+ Py.join " " objects in
  (header, cmd).

Definition root_dir : result string :=
  match main_file env with
  | NoFileAttr => Raise (AttributeError "__file__")
  | FileIsNone => Raise (Exception "couldn't get this scripts name")
  | FilePath path => Ok path
  end.

(** One element of [data] in [build]. *)
Definition database_entry (object : string * string * string)
  : result Json.value :=
  match root_dir with
  | Raise e => Raise e
  | Ok directory =>
      Ok (Json.JObject [("directory", Json.JString directory);
                        ("command", Json.JString (snd (fst object)));
                        ("file", Json.JString (snd object))])
  end.

Definition database_path (ctx : Context) : string :=
  _build_dir ctx +:+ "/compile_commands.json".

Definition build (ctx : Context) : M FS unit :=
  lift (comprehension (mk_object ctx) (_sources ctx)) >>= fun objects =>
  Os.open_w "Makefile" >>
  (let exec := mk_executable ctx in
   Os.write "Makefile" (fst exec +:+ Py.nl +:+ Py.tab +:+ snd exec +:+ Py.nl)) >>
  for_each objects (fun object =>
    Os.write "Makefile" (fst (fst object) +:+ Py.tab +:+ snd (fst object)
                         +:+ Py.nl)) >>
  Os.open_w (database_path ctx) >>
  lift (comprehension database_entry objects) >>= fun data =>
  Os.write (database_path ctx) (Json.dumps_indent4 (Json.JArray data)).

End WithEnv.

(** ** Sequences of configuration calls *)

Inductive call : Type :=
| AddSource (x : Py.str_or_list)
| AddInclude (x : Py.str_or_list)
| AddFlag (x : Py.str_or_list)
| AddDependency (x : Py.str_or_list).

(** The configuration after one call; for [add_dependency] this is the
    object as the call leaves it, whether it returned or raised. *)
Definition apply_call (env : Env) (k : call) (c : Context) : Context :=
  match k with
  | AddSource x => add_source x c
  | AddInclude x => add_include x c
  | AddFlag x => add_flag x c
  | AddDependency x => fst (add_dependency env x c)
  end.

Definition apply_calls (env : Env) (ks : list call) (c : Context) : Context :=
  fold_left (fun c k => apply_call env k c) ks c.

Definition is_dependency_call (k : call) : bool :=
  match k with AddDependency _ => true | _ => false end.

Definition sources_of (ks : list call) : list string :=
  flat_map (fun k => match k with AddSource x => Py.as_list x | _ => [] end) ks.

Definition includes_of (ks : list call) : list string :=
  flat_map (fun k => match k with AddInclude x => Py.as_list x | _ => [] end) ks.

Definition flags_of (ks : list call) : list string :=
  flat_map (fun k => match k with AddFlag x => Py.as_list x | _ => [] end) ks.

(** The flag string reached from [start] by appending the tokens one at
    a time, a space going in front of a token whenever the string is
    not empty. *)
Definition accumulate_flags (start : string) (tokens : list string) : string :=
  fold_left (fun acc f => (if Py.nonempty acc then acc +:+ " " else acc) +:+ f)
            tokens start.

(** ** The texts the specification describes *)

(** [<compiler> -c <flags> <space-joined -I args> -o <object> <source>]. *)
Definition spec_compile_command
  (compiler flags : string) (includes : list string) (object source : string)
  : string :=
  compiler +:+ " -c " +:+ flags +:+ " "
  +:+ Py.join " " (List.map (fun i => "-I" +:+ i) includes)
  +:+ " -o " +:+ object +:+ " " +:+ source.

Definition compile_command_of (ctx : Context) (source : string) : string :=
  spec_compile_command (_compiler ctx) (_flags ctx) (_includes ctx)
                       (object_name ctx source) source.

(** [<outputDir>/<name>: <space-joined object names>]. *)
Definition spec_link_header (ctx : Context) : string :=
  _build_dir ctx +:+ "/" +:+ _name ctx +:+ ": "
  +:+ Py.join " " (List.map (object_name ctx) (_sources ctx)).

(** [<compiler> <flags> <libs> -o <output> <objects...>]. *)
Definition spec_link_command (ctx : Context) : string :=
  _compiler ctx +:+ " " +:+ _flags ctx +:+ " " +:+ _libs ctx
  +:+ " -o " +:+ (_build_dir ctx +:+ "/" +:+ _name ctx)
  +:+ " " +:+ Py.join " " (List.map (object_name ctx) (_sources ctx)).

(** The dependency fragment the compiler prints for [source]. *)
Definition fragment_of (env : Env) (ctx : Context) (source : string) : string :=
  stdout (run env (scan_command ctx source)).

(** One rule block: the fragment, then the tab-indented compile command. *)
Definition spec_rule_block (env : Env) (ctx : Context) (source : string) : string :=
  fragment_of env ctx source +:+ Py.tab +:+ compile_command_of ctx source +:+ Py.nl.

(** The whole Makefile: the link rule, then the rule blocks in order. *)
Definition spec_makefile (env : Env) (ctx : Context) : string :=
  spec_link_header ctx +:+ Py.nl +:+ Py.tab +:+ spec_link_command ctx +:+ Py.nl
  +:+ String.concat EmptyString (List.map (spec_rule_block env ctx) (_sources ctx)).

(** One element of the compilation database. *)
Definition spec_database_entry (root : string) (ctx : Context) (source : string)
  : Json.value :=
  Json.JObject [("directory", Json.JString root);
                ("command", Json.JString (compile_command_of ctx source));
                ("file", Json.JString source)].

Definition spec_database (root : string) (ctx : Context) : Json.value :=
  Json.JArray (List.map (spec_database_entry root ctx) (_sources ctx)).

(** All dependency scans of the sources of [ctx] exit with status 0. *)
Definition scans_succeed (env : Env) (ctx : Context) : Prop :=
  forall s, In s (_sources ctx) ->
            returncode (run env (scan_command ctx s)) = 0%Z.

(** [open(p, "w")] goes through on [fs]. *)
Definition can_open_w (fs : FS) (p : string) : Prop :=
  snd (Os.open_w p fs) = Ok tt.

(** The filesystem once both artifacts hold the given texts. *)
Definition after_build (fs : FS) (ctx : Context) (makefile database : string)
  : FS :=
  Os.put (database_path ctx) database (Os.put "Makefile" makefile fs).

(** The Makefile text from the tuples [mk_object] returned. *)
Definition makefile_of (ctx : Context) (objects : list (string * string * string))
  : string :=
  fst (mk_executable ctx) +:+ Py.nl +:+ Py.tab +:+ snd (mk_executable ctx)
  +:+ Py.nl
  +:+ String.concat EmptyString
        (List.map (fun o => fst (fst o) +:+ Py.tab +:+ snd (fst o) +:+ Py.nl)
                  objects).

(** ** Concrete inputs used by the examples *)

Module Sample.

(** The working directory [/proj], with nothing in it. *)
Definition empty_fs : FS := mkFS ["proj"] ∅ ∅ ∅.

(** The working directory does not allow new entries. *)
Definition locked_fs : FS := mkFS ["proj"] ∅ ∅ {[ ["proj"] ]}.

Definition app_ctx : Context :=
  mkContext ["main.c"] ["include"] [] EmptyString EmptyString
            "app" "cc" "build".

Definition fresh_ctx : Context :=
  mkContext [] [] [] EmptyString EmptyString "app" "cc" "build".

Definition built_fs : FS := mkFS ["proj"] {[ ["proj"; "build"] ]} ∅ ∅.

(** A compiler whose scans all succeed and print one fixed fragment. *)
Definition good_run (cmd : list string) : CompletedProcess :=
  mkProc 0 ("build/main.o: main.c" +:+ Py.nl) EmptyString.

Definition good_env : Env := mkEnv good_run (FilePath "/proj/build.py").

(** A compiler that answers one command line only: the dependency scan
    of [main.c] for [app_ctx]. *)
Definition scan_run (cmd : list string) : CompletedProcess :=
  match cmd with
  | ["cc"; "-Iinclude"; "-MT"; "build/main.o"; "-MM"; "main.c"] =>
      mkProc 0 ("build/main.o: main.c include/app.h" +:+ Py.nl) EmptyString
  | _ => mkProc 1 EmptyString "unexpected command"
  end.

Definition scan_env : Env := mkEnv scan_run (FilePath "/proj/build.py").

(** A metadata provider that knows [zlib] and [libpng] only. *)
Definition pkg_run (cmd : list string) : CompletedProcess :=
  match cmd with
  | ["pkg-config"; "--exists"; "zlib"] => mkProc 0 EmptyString EmptyString
  | ["pkg-config"; "--exists"; "libpng"] => mkProc 0 EmptyString EmptyString
  | ["pkg-config"; "-cflags"; "zlib"] =>
      mkProc 0 ("-I/usr/include/zlib" +:+ Py.nl) EmptyString
  | ["pkg-config"; "-libs"; "zlib"] => mkProc 0 ("-lz" +:+ Py.nl) EmptyString
  | ["pkg-config"; "-cflags"; "libpng"] =>
      mkProc 0 ("-I/usr/include/libpng16" +:+ Py.nl) EmptyString
  | ["pkg-config"; "-libs"; "libpng"] =>
      mkProc 0 ("-lpng16" +:+ Py.nl) EmptyString
  | _ => mkProc 1 EmptyString EmptyString
  end.

Definition pkg_env : Env := mkEnv pkg_run (FilePath "/proj/build.py").

End Sample.

(** ** Toolchain discovery, package variables and flag presets *)

(** The three probes of [get_c_compiler], in the order they are tried. *)
Definition compiler_candidates : list string := ["cc"; "gcc"; "clang"].

(** [run(["which", c]).returncode == 0]. *)
Definition which_finds (env : Env) (c : string) : bool :=
  (returncode (run env ["which"; c]) =? 0)%Z.

Definition get_c_compiler (env : Env) : result string :=
  if (returncode (run env ["which"; "cc"]) =? 0)%Z then Ok "cc"
  else if (returncode (run env ["which"; "gcc"]) =? 0)%Z then Ok "gcc"
  else if (returncode (run env ["which"; "clang"]) =? 0)%Z then Ok "clang"
  else Raise (Exception "no c compiler found").

(** [Context.default(name)]: [cls(name, get_c_compiler(), "build")]. *)
Definition Context_default (env : Env) (name : string) : M FS Context :=
  lift (get_c_compiler env) >>= fun compiler =>
  Context_init name compiler "build".

Definition pkgconfig_get_variable (env : Env) (pkg var : string)
  : result string :=
  let result := run env ["pkg-config"; "--variable=" +:+ var; pkg] in
  if negb (returncode result =? 0)%Z
  then Raise (Exception ("no variable " +:+ var +:+ " for package " +:+ pkg))
  else Ok (Py.strip (stdout result)).

Inductive BuildType : Type :=
| DEBUG
| RELEASE.

Definition default_flags (type : BuildType) : list string :=
  match type with
  | RELEASE =>
      ["-O2"; "-march=native"; "-flto"; "-Wall"; "-Wextra"; "-Wpedantic";
       "-fstack-protector-strong"; "-D_FORTIFY_SOURCE=2"; "-Wformat";
       "-Wformat-security"]
  | DEBUG =>
      ["-g"; "-O0"; "-Wall"; "-Wextra"; "-Wpedantic"; "-Wnull-dereference";
       "-fsanitize=address,undefined"; "-fno-omit-frame-pointer"]
  end.

(** ** Further notions used in the statements *)

Definition dependencies_of (ks : list call) : list string :=
  flat_map (fun k => match k with AddDependency x => Py.as_list x | _ => [] end)
           ks.

(** The tokens without the empty strings at the front. *)
Fixpoint drop_leading_empty (tokens : list string) : list string :=
  match tokens with
  | [] => []
  | t :: r => if Py.nonempty t then tokens else drop_leading_empty r
  end.

(** A character a terminal shows as it is: a line feed or one of
    [' '..'~']. *)
Definition printable (c : ascii) : bool :=
  let n := nat_of_ascii c in
  (n =? 10) || ((32 <=? n) && (n <=? 126)).

Fixpoint all_printable (s : string) : bool :=
  match s with
  | EmptyString => true
  | String c r => printable c && all_printable r
  end.

(** [fs'] differs from [fs] at most in the regular files that [p] and
    [q] name. *)
Definition same_outside (p q : string) (fs fs' : FS) : Prop :=
  fs_cwd fs' = fs_cwd fs /\
  fs_dirs fs' = fs_dirs fs /\
  fs_readonly fs' = fs_readonly fs /\
  forall loc, Os.key fs p <> Some loc -> Os.key fs q <> Some loc ->
              fs_files fs' !! loc = fs_files fs !! loc.

Module Scenario.

(** A provider that knows every package but fails on [-cflags]. *)
Definition cflags_fail_run (cmd : list string) : CompletedProcess :=
  match cmd with
  | "pkg-config" :: "--exists" :: _ => mkProc 0 EmptyString EmptyString
  | _ => mkProc 1 EmptyString "boom"
  end.

Definition cflags_fail_env : Env := mkEnv cflags_fail_run FileIsNone.

(** A provider that answers everything but [-libs]. *)
Definition libs_fail_run (cmd : list string) : CompletedProcess :=
  match cmd with
  | "pkg-config" :: "-libs" :: _ => mkProc 1 EmptyString "boom"
  | _ => mkProc 0 (" -DZ " +:+ Py.nl) EmptyString
  end.

Definition libs_fail_env : Env := mkEnv libs_fail_run FileIsNone.

Definition flagged_ctx : Context :=
  mkContext ["main.c"] [] [] "-O2" "-lm" "app" "cc" "build".

(** Only [gcc] is on the path. *)
Definition gcc_only_run (cmd : list string) : CompletedProcess :=
  match cmd with
  | ["which"; "gcc"] => mkProc 0 ("/usr/bin/gcc" +:+ Py.nl) EmptyString
  | _ => mkProc 1 EmptyString EmptyString
  end.

Definition gcc_only_env : Env := mkEnv gcc_only_run FileIsNone.

Definition no_tool_env : Env :=
  mkEnv (fun _ => mkProc 1 EmptyString EmptyString) FileIsNone.

(** A provider whose variable values come padded with blanks. *)
Definition variable_env : Env :=
  mkEnv (fun _ => mkProc 0 ("  /usr/lib/pkgconfig " +:+ Py.nl) EmptyString)
        FileIsNone.

Definition two_ctx : Context :=
  mkContext ["a.c"; "b.c"; "c.c"] [] [] EmptyString EmptyString
            "app" "cc" "build".

(** The scan of [b.c] fails, the others succeed. *)
Definition scan_b_fails_run (cmd : list string) : CompletedProcess :=
  match cmd with
  | ["cc"; "-MT"; "build/b.o"; "-MM"; "b.c"] =>
      mkProc 1 EmptyString "b.c:1:10: fatal error: x.h: No such file"
  | _ => mkProc 0 ("x.o: x.c" +:+ Py.nl) EmptyString
  end.

Definition scan_b_fails_env : Env :=
  mkEnv scan_b_fails_run (FilePath "/proj/build.py").

(** The compiler works but the entry script is not known. *)
Definition no_main_env : Env := mkEnv Sample.good_run FileIsNone.

Definition no_source_ctx : Context :=
  mkContext [] ["include"] [] "-O2" "-lm" "app" "cc" "build".

(** An output directory below a directory that does not exist. *)
Definition nested_ctx : Context :=
  mkContext ["main.c"] ["include"] [] EmptyString EmptyString
            "app" "cc" "out/build".

(** The working directory holds a regular file named [build]. *)
Definition file_in_the_way_fs : FS :=
  mkFS ["proj"] ∅ {[ ["proj"; "build"] := "not a directory" ]} ∅.

(** The output directory spelled with a trailing slash. *)
Definition slash_ctx : Context :=
  mkContext ["main.c"] ["include"] [] EmptyString EmptyString
            "app" "cc" "build/".

End Scenario.

(** * Properties *)

(** ** Strings *)

Section StringFacts.

Lemma append_cons (a : ascii) (s t : string) :
  String a s +:+ t = String a (s +:+ t).
Proof. reflexivity. Qed.

Lemma append_empty_r (s : string) : s +:+ EmptyString = s.
Proof.
  induction s as [|a s IH]; [reflexivity|].
  rewrite append_cons, IH. reflexivity.
Qed.

Lemma append_assoc (s t u : string) : (s +:+ t) +:+ u = s +:+ (t +:+ u).
Proof.
  induction s as [|a s IH]; [reflexivity|].
  rewrite !append_cons, IH. reflexivity.
Qed.

Lemma length_append (s t : string) :
  String.length (s +:+ t) = String.length s + String.length t.
Proof.
  induction s as [|a s IH]; [reflexivity|].
  rewrite append_cons. cbn [String.length]. rewrite IH. reflexivity.
Qed.

Lemma split_nonempty (sep : ascii) (s : string) : Py.split sep s <> [].
Proof.
  induction s as [|a s IH]; cbn [Py.split]; [discriminate|].
  destruct (Ascii.eqb a sep); [discriminate|].
  destruct (Py.split sep s); [contradiction|discriminate].
Qed.

(** The first field of a split is what stands before the first
    separator. *)
Lemma split_hd_before (sep : ascii) (p rest : string) :
  Py.contains sep p = false ->
  hd EmptyString (Py.split sep (p +:+ String sep rest)) = p.
Proof.
  induction p as [|a p IH]; intros Hp.
  - change (EmptyString +:+ String sep rest) with (String sep rest).
    cbn [Py.split]. rewrite Ascii.eqb_refl. reflexivity.
  - cbn [Py.contains] in Hp. apply orb_false_iff in Hp as [Ha Hp].
    rewrite append_cons. cbn [Py.split]. rewrite Ha.
    specialize (IH Hp).
    destruct (Py.split sep (p +:+ String sep rest)) as [|w ws] eqn:E.
    + exfalso. exact (split_nonempty _ _ E).
    + cbn [hd] in *. rewrite IH. reflexivity.
Qed.

(** Without a separator the only field is the whole string. *)
Lemma split_hd_whole (sep : ascii) (p : string) :
  Py.contains sep p = false ->
  Py.split sep p = [p].
Proof.
  induction p as [|a p IH]; intros Hp; [reflexivity|].
  cbn [Py.contains] in Hp. apply orb_false_iff in Hp as [Ha Hp].
  cbn [Py.split]. rewrite Ha, (IH Hp). reflexivity.
Qed.

Lemma rfind_succ_absent (c : ascii) (s : string) :
  Py.contains c s = false -> Py.rfind_succ c s = 0.
Proof.
  induction s as [|a s IH]; intros Hs; [reflexivity|].
  cbn [Py.contains] in Hs. apply orb_false_iff in Hs as [Ha Hs].
  cbn [Py.rfind_succ]. rewrite (IH Hs), Ha. reflexivity.
Qed.

Lemma rfind_succ_last (c : ascii) (d fn : string) :
  Py.contains c fn = false ->
  Py.rfind_succ c (d +:+ String c fn) = S (String.length d).
Proof.
  intros Hfn. induction d as [|a d IH].
  - change (EmptyString +:+ String c fn) with (String c fn).
    cbn [Py.rfind_succ]. rewrite (rfind_succ_absent _ _ Hfn), Ascii.eqb_refl.
    reflexivity.
  - rewrite append_cons. cbn [Py.rfind_succ String.length]. rewrite IH.
    reflexivity.
Qed.

Lemma slice_from_past (c : ascii) (d t : string) :
  Py.slice_from (S (String.length d)) (d +:+ String c t) = t.
Proof.
  induction d as [|a d IH].
  - destruct t; reflexivity.
  - rewrite append_cons. cbn [String.length].
    change (Py.slice_from (S (S (String.length d))) (String a (d +:+ String c t)))
      with (Py.slice_from (S (String.length d)) (d +:+ String c t)).
    exact IH.
Qed.

(** [basename] of [d/fn] is [fn] when [fn] has no slash. *)
Lemma basename_join (d fn : string) :
  Py.contains "/" fn = false ->
  Py.basename (d +:+ "/" +:+ fn) = fn.
Proof.
  intros Hfn. unfold Py.basename.
  change (d +:+ "/" +:+ fn) with (d +:+ String "/" fn).
  rewrite (rfind_succ_last _ _ _ Hfn).
  apply slice_from_past.
Qed.

Lemma basename_plain (fn : string) :
  Py.contains "/" fn = false -> Py.basename fn = fn.
Proof.
  intros Hfn. unfold Py.basename. rewrite (rfind_succ_absent _ _ Hfn).
  destruct fn; reflexivity.
Qed.

End StringFacts.

(** ** The monad and its loops *)

Section MonadFacts.

Context {S A : Type}.

(** A loop whose body only checks never touches the state. *)
Lemma for_each_lift_state (f : A -> result unit) (l : list A) (s : S) :
  fst (for_each l (fun d => lift (f d)) s) = s.
Proof.
  induction l as [|x l IH]; [reflexivity|].
  cbn [for_each]. unfold bind at 1, lift at 1.
  destruct (f x) as [[]|e]; [exact IH|reflexivity].
Qed.

Lemma for_each_lift_ok (f : A -> result unit) (l : list A) (s : S) :
  (forall d, In d l -> f d = Ok tt) ->
  for_each l (fun d => lift (f d)) s = (s, Ok tt).
Proof.
  induction l as [|x l IH]; intros Hall; [reflexivity|].
  cbn [for_each]. unfold bind at 1, lift at 1.
  rewrite (Hall x (or_introl eq_refl)).
  apply IH. intros d Hd. apply Hall. right. exact Hd.
Qed.

(** If some check fails, the loop raises what the first failing check
    raises. *)
Lemma for_each_lift_raise (f : A -> result unit) (l : list A) (s : S)
      (d : A) (e : exn) :
  In d l -> f d = Raise e ->
  exists d' e', In d' l /\ f d' = Raise e' /\
                for_each l (fun d => lift (f d)) s = (s, Raise e').
Proof.
  induction l as [|x l IH]; intros Hin Hd; [destruct Hin|].
  cbn [for_each]. unfold bind at 1, lift at 1.
  destruct (f x) as [[]|ex] eqn:Hx.
  - destruct Hin as [->|Hin]; [congruence|].
    destruct (IH Hin Hd) as (d' & e' & Hin' & Hd' & Hrun).
    exists d', e'. split; [right; exact Hin'|]. split; assumption.
  - exists x, ex. split; [left; reflexivity|]. split; [exact Hx|reflexivity].
Qed.

End MonadFacts.

(** ** Object naming *)

Section Naming.

Lemma add_include_spec (x : Py.str_or_list) (c : Context) :
  add_include x c = set_includes (_includes c ++ Py.as_list x) c.
Proof.
  unfold add_include. generalize (Py.as_list x) as l. intros l.
  revert c. induction l as [|i l IH]; intros c; cbn [fold_left].
  - rewrite app_nil_r. destruct c; reflexivity.
  - rewrite IH. unfold set_includes; cbn. rewrite <- app_assoc. reflexivity.
Qed.

Lemma add_flag_build_dir (x : Py.str_or_list) (c : Context) :
  _build_dir (add_flag x c) = _build_dir c.
Proof.
  unfold add_flag. generalize (Py.as_list x) as l. intros l.
  revert c. induction l as [|f l IH]; intros c; cbn [fold_left]; [reflexivity|].
  rewrite IH. unfold add_flag_step.
  destruct (Py.nonempty (_flags c)); reflexivity.
Qed.

Lemma add_dependency_build_dir (env : Env) (x : Py.str_or_list) (c : Context) :
  _build_dir (fst (add_dependency env x c)) = _build_dir c.
Proof.
  unfold add_dependency, bind, modify, gets, ret. cbn beta.
  set (c1 := set_dependencies _ c).
  pose proof (for_each_lift_state (assert_installed env) (Py.as_list x) c1) as Hst.
  destruct (for_each (Py.as_list x) _ c1) as [c1' [[]|e]]; cbn [fst] in Hst;
    subst c1'; [|reflexivity].
  unfold lift.
  destruct (Py.nonempty (_flags c1));
    destruct (pkgconfig_cflags env (Py.as_list x));
    destruct (pkgconfig_libs env (Py.as_list x)); reflexivity.
Qed.

Lemma apply_call_build_dir (env : Env) (k : call) (c : Context) :
  _build_dir (apply_call env k c) = _build_dir c.
Proof.
  destruct k as [x|x|x|x]; cbn [apply_call].
  - reflexivity.
  - rewrite add_include_spec. reflexivity.
  - apply add_flag_build_dir.
  - apply add_dependency_build_dir.
Qed.

Lemma apply_calls_build_dir (env : Env) (ks : list call) (c : Context) :
  _build_dir (apply_calls env ks c) = _build_dir c.
Proof.
  unfold apply_calls. revert c.
  induction ks as [|k ks IH]; intros c; cbn [fold_left]; [reflexivity|].
  rewrite IH. apply apply_call_build_dir.
Qed.

(** C6: the object name is a function of the output directory and of
    the base name of the source alone.  Whatever calls were made on
    either configuration in between, equal output directories and
    equal base names give equal object names; in particular the same
    source path always gets the same name, and two different paths
    with one base name get one and the same name. *)
Theorem object_name_pure
        (env1 env2 : Env) (calls1 calls2 : list call)
        (ctx1 ctx2 : Context) (source1 source2 : string) :
  _build_dir ctx1 = _build_dir ctx2 ->
  base_name (file_name source1) = base_name (file_name source2) ->
  object_name (apply_calls env1 calls1 ctx1) source1
  = object_name (apply_calls env2 calls2 ctx2) source2.
Proof.
  intros Hdir Hbase. unfold object_name.
  rewrite !apply_calls_build_dir, Hdir, Hbase. reflexivity.
Qed.

Lemma object_name_pure_witness :
  "src/util.c" <> "lib/util.c" /\
  object_name
    (apply_calls Sample.pkg_env
       [AddFlag (Py.Str "-O2"); AddDependency (Py.Str "zlib")]
       Sample.app_ctx) "src/util.c"
  = object_name
      (apply_calls Sample.pkg_env [AddInclude (Py.Lst ["inc"; "gen"])]
         Sample.app_ctx) "lib/util.c".
Proof.
  split; [discriminate|].
  apply object_name_pure; reflexivity.
Defined.

(** C10: the object name is the output directory, a slash, the part
    of the file's base name before its first dot, and [.o]; a base
    name without a dot is taken whole. *)
Theorem object_name_first_dot (ctx : Context) (source p : string) :
  Py.contains "." p = false ->
  (exists rest, file_name source = p +:+ "." +:+ rest) \/ file_name source = p ->
  object_name ctx source = _build_dir ctx +:+ "/" +:+ p +:+ ".o".
Proof.
  intros Hp Hfn. unfold object_name, base_name.
  destruct Hfn as [[rest ->]| ->].
  - change (p +:+ "." +:+ rest) with (p +:+ String "." rest).
    rewrite (split_hd_before _ _ _ Hp). reflexivity.
  - rewrite (split_hd_whole _ _ Hp). reflexivity.
Qed.

Lemma object_name_first_dot_witness :
  object_name Sample.app_ctx "src/a.b.c" = "build/a.o".
Proof.
  apply (object_name_first_dot Sample.app_ctx "src/a.b.c" "a").
  - reflexivity.
  - left. exists "b.c". reflexivity.
Defined.

(** Two directories, one file name: one object name. *)
Lemma object_name_same_file (ctx : Context) (d1 d2 fn : string) :
  Py.contains "/" fn = false ->
  object_name ctx (d1 +:+ "/" +:+ fn) = object_name ctx (d2 +:+ "/" +:+ fn).
Proof.
  intros Hfn. unfold object_name, file_name.
  rewrite !basename_join by exact Hfn. reflexivity.
Qed.

(** A path without a directory part names the same object. *)
Lemma object_name_plain_file (ctx : Context) (d fn : string) :
  Py.contains "/" fn = false ->
  object_name ctx (d +:+ "/" +:+ fn) = object_name ctx fn.
Proof.
  intros Hfn. unfold object_name, file_name.
  rewrite basename_join, basename_plain by exact Hfn. reflexivity.
Qed.

Example object_name_no_dot :
  object_name Sample.app_ctx "tools/Makefile_gen" = "build/Makefile_gen.o".
Proof. reflexivity. Qed.

End Naming.

(** ** Dependencies *)

Section Dependencies.

Variable env : Env.

Lemma assert_installed_ok (d : string) :
  pkgconfig_is_installed env d = true -> assert_installed env d = Ok tt.
Proof. intros H. unfold assert_installed. rewrite H. reflexivity. Qed.

Lemma assert_installed_raise (d : string) :
  pkgconfig_is_installed env d = false ->
  assert_installed env d = Raise (Exception ("`" +:+ d +:+ "` not installed!")).
Proof. intros H. unfold assert_installed. rewrite H. reflexivity. Qed.

Lemma assert_installed_inv (d : string) (e : exn) :
  assert_installed env d = Raise e ->
  pkgconfig_is_installed env d = false /\
  e = Exception ("`" +:+ d +:+ "` not installed!").
Proof.
  unfold assert_installed.
  destruct (pkgconfig_is_installed env d); cbn [negb]; intros H.
  - discriminate.
  - injection H as <-. split; reflexivity.
Qed.

(** What a call leaves behind when a package of the batch is not
    installed: the batch is already on the dependency list, nothing
    else has moved, and the exception names the first missing package. *)
Lemma add_dependency_not_installed
      (dep : Py.str_or_list) (ctx : Context) (d : string) :
  In d (Py.as_list dep) ->
  pkgconfig_is_installed env d = false ->
  exists d', In d' (Py.as_list dep) /\
             pkgconfig_is_installed env d' = false /\
             add_dependency env dep ctx
             = (set_dependencies (_dependencies ctx ++ Py.as_list dep) ctx,
                Raise (Exception ("`" +:+ d' +:+ "` not installed!"))).
Proof.
  intros Hin Hd.
  unfold add_dependency, bind, modify, gets, ret. cbn beta.
  set (c1 := set_dependencies _ ctx).
  destruct (for_each_lift_raise (assert_installed env) (Py.as_list dep) c1 d _
              Hin (assert_installed_raise d Hd))
    as (d' & e' & Hin' & Hd' & Hrun).
  apply assert_installed_inv in Hd' as [Hd' ->].
  exists d'. rewrite Hrun. auto.
Qed.

(** What a call that goes through does to the configuration. *)
Lemma add_dependency_success (dep : Py.str_or_list) (ctx : Context) :
  (forall d, In d (Py.as_list dep) -> pkgconfig_is_installed env d = true) ->
  returncode (run env (["pkg-config"; "-cflags"] ++ Py.as_list dep)) = 0%Z ->
  returncode (run env (["pkg-config"; "-libs"] ++ Py.as_list dep)) = 0%Z ->
  add_dependency env dep ctx
  = (mkContext (_sources ctx) (_includes ctx)
       (_dependencies ctx ++ Py.as_list dep)
       ((if Py.nonempty (_flags ctx) then _flags ctx +:+ " " else _flags ctx)
        +:+ Py.strip (stdout (run env (["pkg-config"; "-cflags"]
                                         ++ Py.as_list dep))))
       (_libs ctx
        +:+ Py.strip (stdout (run env (["pkg-config"; "-libs"]
                                         ++ Py.as_list dep))))
       (_name ctx) (_compiler ctx) (_build_dir ctx),
     Ok tt).
Proof.
  intros Hall Hc Hl.
  unfold add_dependency, bind, modify, gets, ret. cbn beta.
  rewrite for_each_lift_ok
    by (intros d Hd; apply assert_installed_ok, Hall, Hd).
  unfold lift, pkgconfig_cflags, pkgconfig_libs. rewrite Hc, Hl.
  cbn [Z.eqb negb set_dependencies _flags].
  destruct (Py.nonempty (_flags ctx)); reflexivity.
Qed.

(** Every call that returns has put the new link flags directly behind
    the old library string. *)
Lemma add_dependency_libs_appended (dep : Py.str_or_list) (ctx : Context) :
  snd (add_dependency env dep ctx) = Ok tt ->
  _libs (fst (add_dependency env dep ctx))
  = _libs ctx
    +:+ Py.strip (stdout (run env (["pkg-config"; "-libs"] ++ Py.as_list dep))).
Proof.
  unfold add_dependency, bind, modify, gets, ret. cbn beta.
  set (c1 := set_dependencies _ ctx).
  pose proof (for_each_lift_state (assert_installed env) (Py.as_list dep) c1)
    as Hst.
  destruct (for_each (Py.as_list dep) _ c1) as [c1' [[]|e]]; cbn [fst] in Hst;
    subst c1'; [|discriminate].
  unfold lift, pkgconfig_cflags, pkgconfig_libs.
  destruct (Py.nonempty (_flags c1));
    destruct (negb (returncode (run env (["pkg-config"; "-cflags"]
                                           ++ Py.as_list dep)) =? 0)%Z);
    destruct (negb (returncode (run env (["pkg-config"; "-libs"]
                                           ++ Py.as_list dep)) =? 0)%Z);
    cbn [fst snd]; try discriminate; reflexivity.
Qed.

(** C4: a batch [[D1, D2]] whose second package is not installed makes
    [add_dependency] raise the not-installed exception of a missing
    package of the batch, and neither the flag string nor the library
    string has changed afterwards. *)
Theorem add_dependency_batch_fail_fast (ctx : Context) (D1 D2 : string) :
  pkgconfig_is_installed env D2 = false ->
  exists d,
    (d = D1 \/ d = D2) /\
    pkgconfig_is_installed env d = false /\
    snd (add_dependency env (Py.Lst [D1; D2]) ctx)
    = Raise (Exception ("`" +:+ d +:+ "` not installed!")) /\
    _flags (fst (add_dependency env (Py.Lst [D1; D2]) ctx)) = _flags ctx /\
    _libs (fst (add_dependency env (Py.Lst [D1; D2]) ctx)) = _libs ctx.
Proof.
  intros H2.
  destruct (add_dependency_not_installed (Py.Lst [D1; D2]) ctx D2)
    as (d & Hin & Hd & Hrun).
  - right. left. reflexivity.
  - exact H2.
  - exists d. rewrite Hrun. cbn [Py.as_list In] in Hin.
    repeat split; try assumption; try reflexivity.
    destruct Hin as [<-|[<-|[]]]; auto.
Qed.

(** C5, as the program has it: when a package of the batch fails the
    installed check the call raises, and the configuration it leaves
    is the one before the call with the whole batch appended to the
    dependency list; sources, includes, flags, libraries and the
    target identity are as before. *)
Theorem add_dependency_failure_state
        (dep : Py.str_or_list) (ctx : Context) (d : string) :
  In d (Py.as_list dep) ->
  pkgconfig_is_installed env d = false ->
  (exists e, snd (add_dependency env dep ctx) = Raise e) /\
  fst (add_dependency env dep ctx)
  = mkContext (_sources ctx) (_includes ctx)
              (_dependencies ctx ++ Py.as_list dep)
              (_flags ctx) (_libs ctx)
              (_name ctx) (_compiler ctx) (_build_dir ctx).
Proof.
  intros Hin Hd.
  destruct (add_dependency_not_installed dep ctx d Hin Hd)
    as (d' & _ & _ & Hrun).
  rewrite Hrun. split; [eexists; reflexivity|reflexivity].
Qed.

End Dependencies.

Lemma add_dependency_batch_fail_fast_witness :
  exists d,
    (d = "zlib" \/ d = "openssl") /\
    pkgconfig_is_installed Sample.pkg_env d = false /\
    snd (add_dependency Sample.pkg_env (Py.Lst ["zlib"; "openssl"]) Sample.app_ctx)
    = Raise (Exception ("`" +:+ d +:+ "` not installed!")) /\
    _flags (fst (add_dependency Sample.pkg_env (Py.Lst ["zlib"; "openssl"])
                   Sample.app_ctx)) = _flags Sample.app_ctx /\
    _libs (fst (add_dependency Sample.pkg_env (Py.Lst ["zlib"; "openssl"])
                  Sample.app_ctx)) = _libs Sample.app_ctx.
Proof.
  apply (add_dependency_batch_fail_fast Sample.pkg_env Sample.app_ctx
           "zlib" "openssl").
  reflexivity.
Defined.

(** The example of the specification: [zlib] reported absent. *)
Example add_dependency_zlib_absent :
  let env := mkEnv (fun _ => mkProc 1 EmptyString EmptyString) FileIsNone in
  add_dependency env (Py.Str "zlib") Sample.fresh_ctx
  = (set_dependencies ["zlib"] Sample.fresh_ctx,
     Raise (Exception "`zlib` not installed!")).
Proof. reflexivity. Qed.

Lemma add_dependency_failure_state_witness :
  (exists e, snd (add_dependency Sample.pkg_env (Py.Str "openssl")
                    Sample.app_ctx) = Raise e) /\
  fst (add_dependency Sample.pkg_env (Py.Str "openssl") Sample.app_ctx)
  = mkContext ["main.c"] ["include"] ["openssl"] EmptyString EmptyString
              "app" "cc" "build".
Proof.
  apply (add_dependency_failure_state Sample.pkg_env (Py.Str "openssl")
           Sample.app_ctx "openssl").
  - left. reflexivity.
  - reflexivity.
Defined.

(** C5 as stated fails: after a call that raised at the installed
    check, the dependency list is no longer the one before the call. *)
Lemma add_dependency_failure_changes_state :
  pkgconfig_is_installed Sample.pkg_env "openssl" = false /\
  snd (add_dependency Sample.pkg_env (Py.Str "openssl") Sample.fresh_ctx)
  = Raise (Exception "`openssl` not installed!") /\
  fst (add_dependency Sample.pkg_env (Py.Str "openssl") Sample.fresh_ctx)
  <> Sample.fresh_ctx /\
  _dependencies (fst (add_dependency Sample.pkg_env (Py.Str "openssl")
                        Sample.fresh_ctx)) = ["openssl"].
Proof.
  repeat split; try reflexivity.
  intros H. apply (f_equal _dependencies) in H. discriminate H.
Qed.

(** C7 at two successive calls, each with non-empty link flags: the
    flag string gets a space between the two contributions, the library
    string gets none. *)
Theorem add_dependency_libs_no_separator :
  let c1 := fst (add_dependency Sample.pkg_env (Py.Str "zlib") Sample.fresh_ctx) in
  let r2 := add_dependency Sample.pkg_env (Py.Str "libpng") c1 in
  _libs c1 = "-lz" /\
  snd r2 = Ok tt /\
  _libs (fst r2) = "-lz-lpng16" /\
  _libs (fst r2) <> "-lz -lpng16" /\
  _flags (fst r2) = "-I/usr/include/zlib -I/usr/include/libpng16".
Proof.
  cbv zeta. repeat split; try reflexivity.
  intros H. vm_compute in H. discriminate H.
Qed.

(** ** Paths and the filesystem *)

Section OsFacts.

Lemma split_append (sep : ascii) (a b : string) :
  Py.split sep (a +:+ String sep b) = Py.split sep a ++ Py.split sep b.
Proof.
  induction a as [|c a IH].
  - change (EmptyString +:+ String sep b) with (String sep b).
    cbn [Py.split]. rewrite Ascii.eqb_refl. reflexivity.
  - rewrite append_cons. cbn [Py.split]. rewrite IH.
    destruct (Ascii.eqb c sep); [reflexivity|].
    destruct (Py.split sep a) as [|w ws] eqn:E.
    + exfalso. exact (split_nonempty _ _ E).
    + reflexivity.
Qed.

Lemma drop_trailing_empty_snoc (l : list string) (x : string) :
  String.eqb x "" = false ->
  Os.drop_trailing_empty (l ++ [x]) = l ++ [x].
Proof.
  intros Hx. induction l as [|n l IH].
  - cbn. rewrite Hx. reflexivity.
  - cbn [app Os.drop_trailing_empty]. rewrite IH.
    destruct l; reflexivity.
Qed.

(** The names of a path are its names without the trailing empty ones,
    followed by empty ones. *)
Lemma drop_trailing_empty_spec (l : list string) :
  exists k, l = Os.drop_trailing_empty l ++ repeat EmptyString k.
Proof.
  induction l as [|n l [k IH]].
  - exists 0. reflexivity.
  - cbn [Os.drop_trailing_empty].
    destruct (Os.drop_trailing_empty l) as [|m r] eqn:E.
    + destruct (String.eqb_spec n "") as [->|Hn].
      * exists (S k). cbn. rewrite IH at 1. reflexivity.
      * exists k. cbn. rewrite IH at 1. reflexivity.
    + exists k. rewrite IH at 1. reflexivity.
Qed.

Lemma walk_app (fs : FS) (cur : list string) (l1 l2 : list string) :
  Os.walk fs cur (l1 ++ l2)
  = match Os.walk fs cur l1 with
    | Os.Found c => Os.walk fs c l2
    | Os.Failed e => Os.Failed e
    end.
Proof.
  revert cur. induction l1 as [|n l1 IH]; intros cur; [reflexivity|].
  cbn [app Os.walk].
  repeat (match goal with |- context [if ?b then _ else _] => destruct b end;
          try apply IH; try reflexivity).
Qed.

Lemma walk_empty_names (fs : FS) (cur : list string) (k : nat) :
  Os.walk fs cur (repeat EmptyString k) = Os.Found cur.
Proof. induction k as [|k IH]; [reflexivity|exact IH]. Qed.

(** A resolution that succeeds still succeeds, with the same result,
    when directories are added. *)
Lemma walk_found_mono (fs fs' : FS) (cur names loc : list string) :
  (forall l, Os.is_dir fs l = true -> Os.is_dir fs' l = true) ->
  Os.walk fs cur names = Os.Found loc ->
  Os.walk fs' cur names = Os.Found loc.
Proof.
  intros Hdir. revert cur. induction names as [|n names IH]; intros cur H.
  - exact H.
  - cbn [Os.walk] in H |- *.
    destruct (String.eqb n "" || String.eqb n "."); [exact (IH _ H)|].
    destruct (String.eqb n ".."); [exact (IH _ H)|].
    destruct (Os.is_dir fs (cur ++ [n])) eqn:E.
    + rewrite (Hdir _ E). exact (IH _ H).
    + destruct (Os.is_file fs (cur ++ [n])); discriminate H.
Qed.

Lemma is_dir_congr (fs fs' : FS) (l : list string) :
  fs_cwd fs' = fs_cwd fs -> fs_dirs fs' = fs_dirs fs ->
  Os.is_dir fs' l = Os.is_dir fs l.
Proof. intros Hc Hd. unfold Os.is_dir. rewrite Hc, Hd. reflexivity. Qed.

Lemma start_congr (fs fs' : FS) (p : string) :
  fs_cwd fs' = fs_cwd fs -> Os.start fs' p = Os.start fs p.
Proof. intros Hc. unfold Os.start. rewrite Hc. reflexivity. Qed.

Lemma locate_found_mono (fs fs' : FS) (p : string) (t : Os.target) :
  fs_cwd fs' = fs_cwd fs ->
  (forall l, Os.is_dir fs l = true -> Os.is_dir fs' l = true) ->
  Os.locate fs p = Os.Found t -> Os.locate fs' p = Os.Found t.
Proof.
  intros Hc Hdir. unfold Os.locate.
  destruct (Os.drop_trailing_empty (Py.split "/" p)) as [|n body];
    [intros H; exact H|].
  rewrite (start_congr fs fs' p Hc).
  destruct (Os.walk fs (Os.start fs p) (removelast (n :: body)))
    as [dir|e] eqn:E; [|discriminate].
  rewrite (walk_found_mono fs fs' _ _ _ Hdir E). intros H. exact H.
Qed.

(** The location a path names depends on the working directory and on
    the directories only. *)
Lemma key_congr (fs fs' : FS) (p : string) :
  fs_cwd fs' = fs_cwd fs -> fs_dirs fs' = fs_dirs fs ->
  Os.key fs' p = Os.key fs p.
Proof.
  intros Hc Hd.
  assert (H1 : forall l, Os.is_dir fs l = true -> Os.is_dir fs' l = true)
    by (intros l; rewrite (is_dir_congr fs fs' l Hc Hd); auto).
  assert (H2 : forall l, Os.is_dir fs' l = true -> Os.is_dir fs l = true)
    by (intros l; rewrite (is_dir_congr fs fs' l Hc Hd); auto).
  unfold Os.key. destruct (Py.nonempty p); [|reflexivity].
  destruct (Os.locate fs p) as [t|e] eqn:E.
  - rewrite (locate_found_mono fs fs' p t Hc H1 E). reflexivity.
  - destruct (Os.locate fs' p) as [t'|e'] eqn:E'; [|reflexivity].
    rewrite (locate_found_mono fs' fs p t' (eq_sym Hc) H2 E') in E.
    discriminate E.
Qed.

Lemma key_set_file (fs : FS) (loc : list string) (text p : string) :
  Os.key (Os.set_file loc text fs) p = Os.key fs p.
Proof. apply key_congr; reflexivity. Qed.

Lemma key_put (fs : FS) (q text p : string) :
  Os.key (Os.put q text fs) p = Os.key fs p.
Proof.
  unfold Os.put. destruct (Os.key fs q); [apply key_set_file|reflexivity].
Qed.

Lemma key_makefile (fs : FS) :
  Os.key fs "Makefile" = Some (fs_cwd fs ++ ["Makefile"]).
Proof. reflexivity. Qed.

(** A path [d/name], for a plain name, resolves to that name in the
    directory [d] names. *)
Lemma locate_join (fs : FS) (d name : string) :
  Py.nonempty d = true ->
  Py.contains "/" name = false ->
  String.eqb name "" || String.eqb name "." || String.eqb name ".." = false ->
  Os.locate fs (d +:+ "/" +:+ name)
  = match Os.lookup_dir fs d with
    | Os.Found dir => Os.Found (Os.Entry dir name false)
    | Os.Failed e => Os.Failed e
    end.
Proof.
  intros Hd Hname Hplain.
  apply orb_false_iff in Hplain as [Hplain Hdd].
  apply orb_false_iff in Hplain as [Hempty Hdot].
  unfold Os.locate, Os.lookup_dir.
  change (d +:+ "/" +:+ name) with (d +:+ String "/" name).
  rewrite split_append, (split_hd_whole _ _ Hname).
  rewrite (drop_trailing_empty_snoc _ _ Hempty).
  assert (Hstart : Os.start fs (d +:+ String "/" name) = Os.start fs d).
  { destruct d as [|c d]; [discriminate Hd|reflexivity]. }
  rewrite Hstart.
  destruct (Py.split "/" d ++ [name]) as [|n body] eqn:E.
  { destruct (Py.split "/" d); discriminate E. }
  rewrite <- E, removelast_last, last_last, Nat.eqb_refl.
  cbn [negb]. rewrite Hempty, Hdot, Hdd. cbn [orb]. reflexivity.
Qed.

Lemma locate_database_path (fs : FS) (ctx : Context) :
  Py.nonempty (_build_dir ctx) = true ->
  Os.locate fs (database_path ctx)
  = match Os.lookup_dir fs (_build_dir ctx) with
    | Os.Found dir => Os.Found (Os.Entry dir "compile_commands.json" false)
    | Os.Failed e => Os.Failed e
    end.
Proof.
  intros Hd. unfold database_path.
  apply (locate_join fs (_build_dir ctx) "compile_commands.json" Hd);
    reflexivity.
Qed.

(** The compilation database is never at the Makefile's location. *)
Lemma key_database_not_makefile (fs : FS) (ctx : Context) (loc : list string) :
  Os.key fs (database_path ctx) = Some loc ->
  Os.key fs "Makefile" <> Some loc.
Proof.
  rewrite key_makefile. unfold Os.key.
  destruct (Py.nonempty (database_path ctx)); [|discriminate].
  destruct (_build_dir ctx) as [|c d] eqn:Hbd.
  - unfold database_path. rewrite Hbd.
    change (EmptyString +:+ "/compile_commands.json")
      with "/compile_commands.json".
    change (Os.locate fs "/compile_commands.json")
      with (Os.Found (Os.Entry [] "compile_commands.json" false)).
    intros H1 H2. injection H1 as <-. injection H2 as H2.
    apply (app_inj_tail (fs_cwd fs) [] "Makefile" "compile_commands.json")
      in H2 as [_ H2].
    discriminate H2.
  - rewrite locate_database_path by (rewrite Hbd; reflexivity).
    destruct (Os.lookup_dir fs (_build_dir ctx)) as [dir|e]; [|discriminate].
    intros H1 H2. injection H1 as <-. injection H2 as H2.
    apply app_inj_tail in H2 as [_ H2]. discriminate H2.
Qed.

(** When [open(p, "w")] goes through. *)
Lemma can_open_w_iff (fs : FS) (p : string) :
  can_open_w fs p <->
  (exists parent name,
     Py.nonempty p = true /\
     Os.locate fs p = Os.Found (Os.Entry parent name false) /\
     Os.is_dir fs (parent ++ [name]) = false /\
     (Os.is_file fs (parent ++ [name]) = true \/
      (parent ∉ fs_readonly fs))).
Proof.
  unfold can_open_w, Os.open_w. split.
  - destruct (Py.nonempty p); cbn [negb]; [|discriminate].
    destruct (Os.locate fs p) as [[parent name slash|loc]|e]; try discriminate.
    destruct (Os.is_dir fs (parent ++ [name])) eqn:Ed; [discriminate|].
    destruct slash; [discriminate|].
    destruct (Os.is_file fs (parent ++ [name])) eqn:Ef; cbn [negb andb].
    + intros _. exists parent, name. auto.
    + destruct (bool_decide (parent ∈ fs_readonly fs)) eqn:Er; [discriminate|].
      apply bool_decide_eq_false in Er.
      intros _. exists parent, name. auto.
  - intros (parent & name & Hp & Hl & Hd & Hperm).
    rewrite Hp, Hl, Hd. cbn [negb].
    destruct Hperm as [Hf|Hr].
    + rewrite Hf. reflexivity.
    + rewrite (bool_decide_eq_false_2 _ Hr), andb_false_r. reflexivity.
Qed.

(** When [open(p, "w")] goes through, the file is there and empty. *)
Lemma open_w_ok (fs : FS) (p : string) :
  can_open_w fs p ->
  exists loc, Os.key fs p = Some loc /\
              Os.open_w p fs = (Os.set_file loc EmptyString fs, Ok tt).
Proof.
  intros H. apply can_open_w_iff in H
    as (parent & name & Hp & Hl & Hd & Hperm).
  exists (parent ++ [name]). unfold Os.key, Os.open_w.
  rewrite Hp, Hl, Hd. cbn [negb]. split; [reflexivity|].
  destruct Hperm as [Hf|Hr].
  - rewrite Hf. reflexivity.
  - rewrite (bool_decide_eq_false_2 _ Hr), andb_false_r. reflexivity.
Qed.

Lemma open_w_inv (fs fs' : FS) (p : string) :
  Os.open_w p fs = (fs', Ok tt) -> can_open_w fs p.
Proof. unfold can_open_w. intros ->. reflexivity. Qed.

Lemma can_open_w_key (fs : FS) (p : string) :
  can_open_w fs p -> exists loc, Os.key fs p = Some loc.
Proof. intros H. destruct (open_w_ok fs p H) as (loc & Hk & _). eauto. Qed.

(** Whether a path can be opened depends on the working directory, the
    directories, the read-only set and on whether the file is already
    there. *)
Lemma can_open_w_congr (fs fs' : FS) (p : string) :
  fs_cwd fs' = fs_cwd fs ->
  fs_dirs fs' = fs_dirs fs ->
  fs_readonly fs' = fs_readonly fs ->
  (forall loc, Os.key fs p = Some loc ->
               is_Some (fs_files fs !! loc) -> is_Some (fs_files fs' !! loc)) ->
  can_open_w fs p -> can_open_w fs' p.
Proof.
  intros Hc Hd Hr Hfile H.
  apply can_open_w_iff in H as (parent & name & Hp & Hl & Hdir & Hperm).
  apply can_open_w_iff. exists parent, name.
  split; [exact Hp|]. split; [|split].
  - apply (locate_found_mono fs fs' p _ Hc); [|exact Hl].
    intros l. rewrite (is_dir_congr fs fs' l Hc Hd). auto.
  - rewrite (is_dir_congr fs fs' _ Hc Hd). exact Hdir.
  - rewrite Hr. destruct Hperm as [Hf|Hperm]; [left|right; exact Hperm].
    unfold Os.is_file in *. apply bool_decide_eq_true in Hf.
    apply bool_decide_eq_true_2, (Hfile (parent ++ [name])); [|exact Hf].
    unfold Os.key. rewrite Hp, Hl. reflexivity.
Qed.

Lemma write_at (fs : FS) (p data : string) (loc : list string) :
  Os.key fs p = Some loc ->
  Os.write p data fs
  = (Os.set_file loc (default EmptyString (fs_files fs !! loc) +:+ data) fs,
     Ok tt).
Proof. intros Hk. unfold Os.write, modify. rewrite Hk. reflexivity. Qed.

Lemma set_file_twice (fs : FS) (loc : list string) (t1 t2 : string) :
  Os.set_file loc t2 (Os.set_file loc t1 fs) = Os.set_file loc t2 fs.
Proof.
  unfold Os.set_file. cbn [fs_cwd fs_dirs fs_files fs_readonly].
  rewrite insert_insert_eq. reflexivity.
Qed.

Lemma set_file_same (fs : FS) (loc : list string) (text : string) :
  fs_files fs !! loc = Some text -> Os.set_file loc text fs = fs.
Proof.
  intros H. unfold Os.set_file. rewrite (insert_id _ _ _ H).
  destruct fs; reflexivity.
Qed.

Lemma lookup_set_file (fs : FS) (loc : list string) (text : string) :
  fs_files (Os.set_file loc text fs) !! loc = Some text.
Proof. cbn [Os.set_file fs_files]. apply lookup_insert_eq. Qed.

Lemma put_at (fs : FS) (p text : string) (loc : list string) :
  Os.key fs p = Some loc -> Os.put p text fs = Os.set_file loc text fs.
Proof. intros Hk. unfold Os.put. rewrite Hk. reflexivity. Qed.

End OsFacts.

(** ** Configuration creation *)

Section Creation.

Lemma mkdir_raise_unchanged (dir : string) (fs : FS) (e : exn) :
  snd (Os.mkdir dir fs) = Raise e -> fst (Os.mkdir dir fs) = fs.
Proof.
  unfold Os.mkdir.
  destruct (negb (Py.nonempty dir)); [reflexivity|].
  destruct (Os.locate fs dir) as [[parent name slash|loc]|e']; try reflexivity.
  repeat (match goal with |- context [if ?b then _ else _] => destruct b end;
          cbn [fst snd]; try reflexivity).
  discriminate.
Qed.

Lemma make_dir_never_raises (dir : string) (fs : FS) :
  make_dir dir fs = (fst (Os.mkdir dir fs), Ok tt).
Proof.
  unfold make_dir, try_except, ret.
  destruct (Os.mkdir dir fs) as [fs' [[]|e]]; reflexivity.
Qed.

(** C8, as the program has it: creating a configuration tries to
    create the output directory and always returns the configuration.
    When [os.mkdir] goes through the directory is there afterwards;
    when it raises, for whatever reason (already there, missing
    parent, permission denied), the exception is dropped and the
    filesystem is as before. *)
Theorem Context_init_suppresses_every_failure
        (name compiler dir : string) (fs : FS) :
  Context_init name compiler dir fs
  = (fst (Os.mkdir dir fs),
     Ok (mkContext [] [] [] EmptyString EmptyString name compiler dir)) /\
  match snd (Os.mkdir dir fs) with
  | Ok _ =>
      exists parent name slash,
        Os.locate fs dir = Os.Found (Os.Entry parent name slash) /\
        fst (Os.mkdir dir fs)
        = mkFS (fs_cwd fs) ({[ parent ++ [name] ]} ∪ fs_dirs fs)
               (fs_files fs) (fs_readonly fs)
  | Raise _ => fst (Os.mkdir dir fs) = fs
  end.
Proof.
  split.
  - unfold Context_init, build_dir_setter, bind.
    rewrite make_dir_never_raises. reflexivity.
  - destruct (snd (Os.mkdir dir fs)) as [[]|e] eqn:E.
    + revert E. unfold Os.mkdir.
      destruct (negb (Py.nonempty dir)); [discriminate|].
      destruct (Os.locate fs dir) as [[parent leaf slash|loc]|e'];
        try discriminate.
      repeat (match goal with |- context [if ?b then _ else _] => destruct b end;
              cbn [fst snd]; try discriminate).
      intros _. exists parent, leaf, slash. split; reflexivity.
    + exact (mkdir_raise_unchanged _ _ _ E).
Qed.

(** C8 as stated fails: the working directory refuses new entries,
    [os.mkdir] raises [PermissionError], and creation still returns
    the configuration, with no directory made. *)
Lemma Context_init_hides_permission_error :
  Os.mkdir "build" Sample.locked_fs
  = (Sample.locked_fs, Raise (OSError PermissionError "build")) /\
  Context_init "app" "cc" "build" Sample.locked_fs
  = (Sample.locked_fs, Ok Sample.fresh_ctx).
Proof. split; reflexivity. Qed.

(** Pre-existence is tolerated the same way. *)
Example Context_init_existing_directory :
  Os.mkdir "build" Sample.built_fs
  = (Sample.built_fs, Raise (OSError FileExistsError "build")) /\
  Context_init "app" "cc" "build" Sample.built_fs
  = (Sample.built_fs, Ok Sample.fresh_ctx).
Proof. split; reflexivity. Qed.

Example Context_init_creates_directory :
  Context_init "app" "cc" "build" Sample.empty_fs
  = (Sample.built_fs, Ok Sample.fresh_ctx).
Proof. vm_compute. reflexivity. Qed.

(** However the output directory is spelled, it is the same directory
    that is made. *)
Example Context_init_spellings :
  fst (Context_init "app" "cc" "build/" Sample.empty_fs) = Sample.built_fs /\
  fst (Context_init "app" "cc" "./build" Sample.empty_fs) = Sample.built_fs /\
  fst (Context_init "app" "cc" "/proj/build" Sample.empty_fs) = Sample.built_fs.
Proof. repeat split; vm_compute; reflexivity. Qed.

End Creation.

(** ** Compile commands *)

Section CompileCommand.

Variable env : Env.

Lemma mk_object_ok (ctx : Context) (source : string) :
  returncode (run env (scan_command ctx source)) = 0%Z ->
  mk_object env ctx source
  = Ok (fragment_of env ctx source, compile_command_of ctx source, source).
Proof.
  intros H. unfold mk_object. rewrite H. reflexivity.
Qed.

Lemma mk_object_inv (ctx : Context) (source : string) o :
  mk_object env ctx source = Ok o ->
  returncode (run env (scan_command ctx source)) = 0%Z.
Proof.
  unfold mk_object.
  destruct (returncode (run env (scan_command ctx source)) =? 0)%Z eqn:E;
    cbn [negb]; [|discriminate].
  intros _. apply Z.eqb_eq. exact E.
Qed.

Lemma add_flag_spec (x : Py.str_or_list) (c : Context) :
  add_flag x c = set_flags (accumulate_flags (_flags c) (Py.as_list x)) c.
Proof.
  unfold add_flag, accumulate_flags. generalize (Py.as_list x) as l. intros l.
  revert c. induction l as [|f l IH]; intros c; cbn [fold_left].
  - destruct c; reflexivity.
  - rewrite IH. unfold add_flag_step.
    destruct (Py.nonempty (_flags c)); reflexivity.
Qed.

Lemma accumulate_flags_app (start : string) (l1 l2 : list string) :
  accumulate_flags start (l1 ++ l2)
  = accumulate_flags (accumulate_flags start l1) l2.
Proof. unfold accumulate_flags. apply fold_left_app. Qed.

(** The three accumulators after a run of calls without
    [add_dependency]. *)
Lemma apply_calls_plain (ks : list call) (c : Context) :
  forallb (fun k => negb (is_dependency_call k)) ks = true ->
  apply_calls env ks c
  = mkContext (_sources c ++ sources_of ks)
              (_includes c ++ includes_of ks)
              (_dependencies c)
              (accumulate_flags (_flags c) (flags_of ks))
              (_libs c) (_name c) (_compiler c) (_build_dir c).
Proof.
  unfold apply_calls. revert c.
  induction ks as [|k ks IH]; intros c Hks; cbn [fold_left].
  - cbn. rewrite !app_nil_r. destruct c; reflexivity.
  - cbn [forallb] in Hks. apply andb_true_iff in Hks as [Hk Hks].
    rewrite (IH _ Hks).
    unfold sources_of, includes_of, flags_of.
    destruct k as [x|x|x|x]; cbn [apply_call]; try discriminate Hk.
    + cbn [flat_map app add_source
             set_sources _sources _includes _dependencies _flags _libs _name
             _compiler _build_dir].
      rewrite <- app_assoc. reflexivity.
    + rewrite add_include_spec.
      cbn [flat_map app
             set_includes _sources _includes _dependencies _flags _libs _name
             _compiler _build_dir].
      rewrite <- app_assoc. reflexivity.
    + rewrite add_flag_spec.
      cbn [flat_map app
             set_flags _sources _includes _dependencies _flags _libs _name
             _compiler _build_dir].
      rewrite accumulate_flags_app. reflexivity.
Qed.

(** C1: after any run of [add_source], [add_include] and [add_flag]
    calls on any configuration, [mk_object] gives for a source whose
    scan succeeds the command
    [<compiler> -c <flags> <-I args> -o <object> <source>]: the flags
    are the accumulated flag string, the [-I] arguments are the
    include directories in call order, the object is the object name
    of the source and the source is the path as given. *)
Theorem compile_command_format
        (ks : list call) (ctx0 : Context) (source : string) :
  forallb (fun k => negb (is_dependency_call k)) ks = true ->
  returncode (run env (scan_command (apply_calls env ks ctx0) source)) = 0%Z ->
  let ctx := apply_calls env ks ctx0 in
  _sources ctx = _sources ctx0 ++ sources_of ks /\
  _includes ctx = _includes ctx0 ++ includes_of ks /\
  _flags ctx = accumulate_flags (_flags ctx0) (flags_of ks) /\
  mk_object env ctx source
  = Ok (stdout (run env (scan_command ctx source)),
        _compiler ctx0 +:+ " -c " +:+ _flags ctx +:+ " "
        +:+ Py.join " " (List.map (fun i => "-I" +:+ i)
                                  (_includes ctx0 ++ includes_of ks))
        +:+ " -o " +:+ object_name ctx source +:+ " " +:+ source,
        source).
Proof.
  intros Hks Hscan ctx. subst ctx.
  rewrite (mk_object_ok _ _ Hscan).
  rewrite (apply_calls_plain ks ctx0 Hks).
  repeat split; reflexivity.
Qed.

(** With tokens that are not empty the accumulated flag string is the
    tokens joined by single spaces. *)
Lemma accumulate_flags_join (f : string) (tokens : list string) :
  Forall (fun t => Py.nonempty t = true) (f :: tokens) ->
  accumulate_flags EmptyString (f :: tokens) = Py.join " " (f :: tokens).
Proof.
  unfold accumulate_flags. cbn [fold_left Py.nonempty].
  change (EmptyString +:+ f) with f.
  revert f. induction tokens as [|t tokens IH]; intros f Hall.
  - reflexivity.
  - inversion Hall as [|? ? Hf Hrest]; subst.
    cbn [fold_left]. rewrite Hf.
    inversion Hrest as [|? ? Ht Htokens]; subst.
    assert (Hft : Py.nonempty ((f +:+ " ") +:+ t) = true).
    { destruct f; [discriminate Hf|reflexivity]. }
    assert (Hall' : Forall (fun t => Py.nonempty t = true)
                           (((f +:+ " ") +:+ t) :: tokens))
      by (constructor; assumption).
    specialize (IH _ Hall').
    rewrite IH. unfold Py.join.
    change (String.concat " " (f :: t :: tokens))
      with (f +:+ " " +:+ String.concat " " (t :: tokens)).
    destruct tokens as [|t' tokens'].
    + cbn [String.concat]. apply append_assoc.
    + change (String.concat " " (((f +:+ " ") +:+ t) :: t' :: tokens'))
        with (((f +:+ " ") +:+ t) +:+ " " +:+ String.concat " " (t' :: tokens')).
      change (String.concat " " (t :: t' :: tokens'))
        with (t +:+ " " +:+ String.concat " " (t' :: tokens')).
      rewrite !append_assoc. reflexivity.
Qed.

End CompileCommand.

Lemma compile_command_format_witness :
  let ctx := apply_calls Sample.good_env
               [AddSource (Py.Str "main.c");
                AddInclude (Py.Lst ["include"; "gen"]);
                AddFlag (Py.Lst ["-O2"; "-Wall"])]
               Sample.fresh_ctx in
  _sources ctx = ["main.c"] /\
  _includes ctx = ["include"; "gen"] /\
  _flags ctx = "-O2 -Wall" /\
  mk_object Sample.good_env ctx "main.c"
  = Ok ("build/main.o: main.c" +:+ Py.nl,
        "cc -c -O2 -Wall -Iinclude -Igen -o build/main.o main.c",
        "main.c").
Proof.
  apply (compile_command_format Sample.good_env
           [AddSource (Py.Str "main.c");
            AddInclude (Py.Lst ["include"; "gen"]);
            AddFlag (Py.Lst ["-O2"; "-Wall"])]
           Sample.fresh_ctx "main.c"); reflexivity.
Defined.

(** ** Generation *)

Section Generation.

Lemma comprehension_map {A B : Type} (f : A -> result B) (g : A -> B)
      (l : list A) :
  (forall x, In x l -> f x = Ok (g x)) ->
  comprehension f l = Ok (List.map g l).
Proof.
  induction l as [|x l IH]; intros H; [reflexivity|].
  cbn [comprehension List.map].
  rewrite (H x (or_introl eq_refl)), IH; [reflexivity|].
  intros y Hy. apply H. right. exact Hy.
Qed.

Lemma comprehension_inv {A B : Type} (f : A -> result B) (l : list A)
      (ys : list B) :
  comprehension f l = Ok ys ->
  forall x, In x l -> exists y, f x = Ok y.
Proof.
  revert ys. induction l as [|x l IH]; intros ys H z Hz; [destruct Hz|].
  cbn [comprehension] in H.
  destruct (f x) as [y|e] eqn:Hx; [|discriminate].
  destruct (comprehension f l) as [ys'|e] eqn:Hl; [|discriminate].
  destruct Hz as [<-|Hz]; [eauto|exact (IH _ eq_refl z Hz)].
Qed.

Lemma comprehension_ext {A B : Type} (f g : A -> result B) (l : list A) :
  (forall x, In x l -> f x = g x) ->
  comprehension f l = comprehension g l.
Proof.
  induction l as [|x l IH]; intros H; [reflexivity|].
  cbn [comprehension].
  rewrite (H x (or_introl eq_refl)), IH; [reflexivity|].
  intros y Hy. apply H. right. exact Hy.
Qed.

Lemma concat_empty_cons (x : string) (xs : list string) :
  String.concat EmptyString (x :: xs) = x +:+ String.concat EmptyString xs.
Proof.
  destruct xs as [|y ys]; [symmetry; apply append_empty_r|reflexivity].
Qed.

(** A loop of writes appends the pieces in order. *)
Lemma for_each_write {A : Type} (p : string) (f : A -> string)
      (l : list A) (fs : FS) (loc : list string) (c : string) :
  Os.key fs p = Some loc ->
  fs_files fs !! loc = Some c ->
  for_each l (fun o => Os.write p (f o)) fs
  = (Os.set_file loc (c +:+ String.concat EmptyString (List.map f l)) fs,
     Ok tt).
Proof.
  revert fs c. induction l as [|x l IH]; intros fs c Hk Hc.
  - cbn [for_each List.map String.concat]. rewrite append_empty_r.
    rewrite (set_file_same _ _ _ Hc). reflexivity.
  - cbn [for_each List.map]. unfold bind at 1.
    rewrite (write_at fs p (f x) loc Hk), Hc. cbn [default].
    rewrite (IH _ (c +:+ f x)).
    + rewrite set_file_twice, concat_empty_cons, append_assoc. reflexivity.
    + rewrite key_set_file. exact Hk.
    + apply lookup_set_file.
Qed.

Lemma open_w_raise_unchanged (p : string) (fs : FS) (e : exn) :
  snd (Os.open_w p fs) = Raise e -> fst (Os.open_w p fs) = fs.
Proof.
  unfold Os.open_w.
  destruct (negb (Py.nonempty p)); [reflexivity|].
  destruct (Os.locate fs p) as [[parent name slash|loc]|e']; try reflexivity.
  repeat (match goal with |- context [if ?b then _ else _] => destruct b end;
          cbn [fst snd]; try reflexivity).
  discriminate.
Qed.

Lemma read_put (fs : FS) (p text : string) (loc : list string) :
  Os.key fs p = Some loc -> Os.read (Os.put p text fs) p = Some text.
Proof.
  intros Hk. unfold Os.read. rewrite key_put, Hk, (put_at _ _ _ _ Hk).
  cbn [Os.set_file fs_files]. apply lookup_insert_eq.
Qed.

Lemma read_set_file_other (fs : FS) (p text : string) (loc : list string) :
  Os.key fs p <> Some loc ->
  Os.read (Os.set_file loc text fs) p = Os.read fs p.
Proof.
  intros Hne. unfold Os.read. rewrite key_set_file.
  destruct (Os.key fs p) as [l|]; [|reflexivity].
  cbn [Os.set_file fs_files]. apply lookup_insert_ne. congruence.
Qed.

Variable env : Env.

(** Past the scans and the first [open], what is left of [build] runs
    on a filesystem whose Makefile is complete. *)
Lemma build_unfold (ctx : Context) (fs : FS)
      (objects : list (string * string * string)) :
  comprehension (mk_object env ctx) (_sources ctx) = Ok objects ->
  can_open_w fs "Makefile" ->
  build env ctx fs
  = (Os.open_w (database_path ctx) >>
     lift (comprehension (database_entry env) objects) >>= fun data =>
     Os.write (database_path ctx) (Json.dumps_indent4 (Json.JArray data)))
      (Os.put "Makefile" (makefile_of ctx objects) fs).
Proof.
  intros Hobj Hmk.
  destruct (open_w_ok fs "Makefile" Hmk) as (loc & Hk & Hopen).
  unfold build, bind, lift. rewrite Hobj, Hopen.
  rewrite (write_at (Os.set_file loc EmptyString fs) "Makefile" _ loc)
    by (rewrite key_set_file; exact Hk).
  rewrite lookup_set_file. cbn [default]. rewrite set_file_twice.
  erewrite for_each_write;
    [|rewrite key_set_file; exact Hk|apply lookup_set_file].
  rewrite set_file_twice, (put_at fs "Makefile" _ loc Hk).
  unfold makefile_of.
  change (EmptyString +:+ ?x) with x.
  rewrite !append_assoc. reflexivity.
Qed.

Lemma can_open_w_beside_makefile (ctx : Context) (fs : FS) (text : string) :
  can_open_w fs (database_path ctx) <->
  can_open_w (Os.put "Makefile" text fs) (database_path ctx).
Proof.
  rewrite (put_at fs "Makefile" text _ (key_makefile fs)).
  split; apply can_open_w_congr; try reflexivity.
  - intros loc _ Hs. cbn [Os.set_file fs_files].
    destruct (decide (fs_cwd fs ++ ["Makefile"] = loc)) as [<-|Hne].
    + rewrite lookup_insert_eq. eauto.
    + rewrite lookup_insert_ne by exact Hne. exact Hs.
  - intros loc Hk. rewrite key_set_file in Hk.
    pose proof (key_database_not_makefile fs ctx loc Hk) as Hne.
    rewrite key_makefile in Hne.
    cbn [Os.set_file fs_files].
    rewrite lookup_insert_ne by congruence. auto.
Qed.

(** A generation that goes through: both opens succeed and both
    comprehensions return. *)
Lemma build_run (ctx : Context) (fs : FS)
      (objects : list (string * string * string)) (data : list Json.value) :
  comprehension (mk_object env ctx) (_sources ctx) = Ok objects ->
  comprehension (database_entry env) objects = Ok data ->
  can_open_w fs "Makefile" ->
  can_open_w fs (database_path ctx) ->
  build env ctx fs
  = (after_build fs ctx (makefile_of ctx objects)
                 (Json.dumps_indent4 (Json.JArray data)),
     Ok tt).
Proof.
  intros Hobj Hdata Hmk Hdb.
  rewrite (build_unfold _ _ _ Hobj Hmk).
  apply (can_open_w_beside_makefile ctx fs (makefile_of ctx objects)) in Hdb.
  destruct (open_w_ok _ _ Hdb) as (loc & Hk & Hopen).
  unfold bind, lift. rewrite Hopen, Hdata.
  rewrite (write_at _ (database_path ctx) _ loc)
    by (rewrite key_set_file; exact Hk).
  rewrite set_file_twice. unfold after_build.
  rewrite (put_at _ (database_path ctx) _ loc Hk).
  rewrite lookup_set_file. reflexivity.
Qed.

(** Conversely a generation that returned went through every step. *)
Lemma build_inv (ctx : Context) (fs fs1 : FS) :
  build env ctx fs = (fs1, Ok tt) ->
  exists objects data,
    comprehension (mk_object env ctx) (_sources ctx) = Ok objects /\
    comprehension (database_entry env) objects = Ok data /\
    can_open_w fs "Makefile" /\
    can_open_w fs (database_path ctx).
Proof.
  intros H.
  destruct (comprehension (mk_object env ctx) (_sources ctx))
    as [objects|e] eqn:Hobj.
  2:{ unfold build, bind, lift in H. rewrite Hobj in H. discriminate H. }
  assert (Hmk : can_open_w fs "Makefile").
  { unfold build, bind, lift in H. rewrite Hobj in H.
    unfold can_open_w.
    destruct (Os.open_w "Makefile" fs) as [fsa [[]|e]];
      [reflexivity|discriminate H]. }
  rewrite (build_unfold _ _ _ Hobj Hmk) in H.
  unfold bind, lift in H.
  destruct (Os.open_w (database_path ctx) _) as [fsb [[]|e]] eqn:Hopen;
    [|discriminate H].
  apply open_w_inv, can_open_w_beside_makefile in Hopen.
  destruct (comprehension (database_entry env) objects) as [data|e] eqn:Hdata;
    [|discriminate H].
  exists objects, data. auto.
Qed.

Lemma objects_of_sources (ctx : Context) :
  scans_succeed env ctx ->
  comprehension (mk_object env ctx) (_sources ctx)
  = Ok (List.map (fun s => (fragment_of env ctx s, compile_command_of ctx s, s))
                 (_sources ctx)).
Proof.
  intros Hscan. apply comprehension_map.
  intros s Hs. apply mk_object_ok, Hscan, Hs.
Qed.

Lemma makefile_of_sources (ctx : Context) :
  makefile_of ctx
    (List.map (fun s => (fragment_of env ctx s, compile_command_of ctx s, s))
              (_sources ctx))
  = spec_makefile env ctx.
Proof.
  unfold makefile_of, spec_makefile. rewrite List.map_map. reflexivity.
Qed.

Lemma data_of_sources (ctx : Context) (root : string) :
  main_file env = FilePath root ->
  comprehension (database_entry env)
    (List.map (fun s => (fragment_of env ctx s, compile_command_of ctx s, s))
              (_sources ctx))
  = Ok (List.map (spec_database_entry root ctx) (_sources ctx)).
Proof.
  intros Hroot.
  rewrite (comprehension_map _
             (fun o => Json.JObject
                         [("directory", Json.JString root);
                          ("command", Json.JString (snd (fst o)));
                          ("file", Json.JString (snd o))])).
  - rewrite List.map_map. reflexivity.
  - intros o _. unfold database_entry, root_dir. rewrite Hroot. reflexivity.
Qed.

(** What comes after the Makefile leaves the Makefile as it is. *)
Lemma database_stage_keeps_makefile
      (ctx : Context) (fs : FS)
      (objects : list (string * string * string)) :
  Os.read
    (fst ((Os.open_w (database_path ctx) >>
           lift (comprehension (database_entry env) objects) >>= fun data =>
           Os.write (database_path ctx)
                    (Json.dumps_indent4 (Json.JArray data))) fs))
    "Makefile"
  = Os.read fs "Makefile".
Proof.
  unfold bind, lift.
  destruct (Os.open_w (database_path ctx) fs) as [fs' [[]|e]] eqn:Hopen.
  - pose proof (open_w_inv _ _ _ Hopen) as Hdb.
    destruct (open_w_ok _ _ Hdb) as (loc & Hk & Hopen').
    rewrite Hopen' in Hopen. injection Hopen as <-.
    pose proof (key_database_not_makefile fs ctx loc Hk) as Hne.
    destruct (comprehension (database_entry env) objects) as [data|e];
      cbn [fst].
    + rewrite (write_at _ (database_path ctx) _ loc)
        by (rewrite key_set_file; exact Hk).
      cbn [fst]. rewrite set_file_twice.
      apply read_set_file_other, Hne.
    + apply read_set_file_other, Hne.
  - pose proof (open_w_raise_unchanged (database_path ctx) fs e) as Hsame.
    rewrite Hopen in Hsame. cbn [fst snd] in Hsame |- *.
    rewrite (Hsame eq_refl). reflexivity.
Qed.

Lemma makefile_text_after_build (ctx : Context) (fs : FS) :
  scans_succeed env ctx ->
  can_open_w fs "Makefile" ->
  Os.read (fst (build env ctx fs)) "Makefile" = Some (spec_makefile env ctx).
Proof.
  intros Hscan Hmk.
  rewrite (build_unfold _ _ _ (objects_of_sources _ Hscan) Hmk).
  rewrite makefile_of_sources, database_stage_keeps_makefile.
  apply (read_put fs "Makefile" _ _ (key_makefile fs)).
Qed.

(** C2: when the dependency scans
    [<compiler> -I<dir>... -MT <object> -MM <source>] of the sources
    exit with status 0 and the Makefile can be opened, generation leaves
    a Makefile that starts with the link rule, the header
    [<outputDir>/<name>: <object names>] and on the next line a tab and
    the link command, and goes on with one block per source in order,
    the output of the scan of that source followed by a tab and the
    compile command. *)
Theorem build_writes_makefile (ctx : Context) (fs : FS) :
  let scan := fun source =>
    run env ([_compiler ctx]
             ++ List.map (fun i => "-I" +:+ i) (_includes ctx)
             ++ ["-MT"; object_name ctx source; "-MM"; source]) in
  (forall s, In s (_sources ctx) -> returncode (scan s) = 0%Z) ->
  can_open_w fs "Makefile" ->
  Os.read (fst (build env ctx fs)) "Makefile"
  = Some ((_build_dir ctx +:+ "/" +:+ _name ctx +:+ ": "
           +:+ Py.join " " (List.map (object_name ctx) (_sources ctx)))
          +:+ Py.nl +:+ Py.tab +:+ spec_link_command ctx +:+ Py.nl
          +:+ String.concat EmptyString
                (List.map (fun s => stdout (scan s) +:+ Py.tab
                                    +:+ compile_command_of ctx s +:+ Py.nl)
                          (_sources ctx))).
Proof.
  intros scan Hscan Hmk.
  exact (makefile_text_after_build ctx fs Hscan Hmk).
Qed.

(** C3: when generation goes through and the entry script is known,
    the compilation database holds the JSON array with one object per
    source, in source order, whose [directory] is the root path, whose
    [command] is the compile command of the source and whose [file] is
    the source path as it was given. *)
Theorem build_writes_database (ctx : Context) (fs : FS) (root : string) :
  scans_succeed env ctx ->
  can_open_w fs "Makefile" ->
  can_open_w fs (database_path ctx) ->
  main_file env = FilePath root ->
  let entries :=
    List.map (fun s => Json.JObject
                         [("directory", Json.JString root);
                          ("command", Json.JString (compile_command_of ctx s));
                          ("file", Json.JString s)])
             (_sources ctx) in
  snd (build env ctx fs) = Ok tt /\
  Os.read (fst (build env ctx fs)) (database_path ctx)
  = Some (Json.dumps_indent4 (Json.JArray entries)) /\
  length entries = length (_sources ctx) /\
  forall i s, nth_error (_sources ctx) i = Some s ->
              nth_error entries i
              = Some (Json.JObject
                        [("directory", Json.JString root);
                         ("command", Json.JString (compile_command_of ctx s));
                         ("file", Json.JString s)]).
Proof.
  intros Hscan Hmk Hdb Hroot entries.
  rewrite (build_run _ _ _ _ (objects_of_sources _ Hscan)
             (data_of_sources _ _ Hroot) Hmk Hdb).
  cbn [fst snd]. split; [reflexivity|]. split; [|split].
  - unfold after_build.
    apply (can_open_w_beside_makefile ctx fs
             (makefile_of ctx
                (List.map (fun s => (fragment_of env ctx s,
                                     compile_command_of ctx s, s))
                          (_sources ctx)))) in Hdb.
    destruct (can_open_w_key _ _ Hdb) as [loc Hk].
    exact (read_put _ _ _ _ Hk).
  - subst entries. apply List.length_map.
  - intros i s Hs. subst entries.
    rewrite List.nth_error_map, Hs. reflexivity.
Qed.

End Generation.

(** ** Repeated generation *)

Section Regeneration.

Lemma put_again (fs : FS) (p text : string) :
  Os.read fs p = Some text -> Os.put p text fs = fs.
Proof.
  unfold Os.read, Os.put. destruct (Os.key fs p) as [loc|]; [|reflexivity].
  apply set_file_same.
Qed.

Lemma read_put_other (fs : FS) (p q text : string) :
  (forall loc, Os.key fs q = Some loc -> Os.key fs p <> Some loc) ->
  Os.read (Os.put q text fs) p = Os.read fs p.
Proof.
  intros Hne. unfold Os.put.
  destruct (Os.key fs q) as [loc|] eqn:Hq; [|reflexivity].
  apply read_set_file_other, Hne. reflexivity.
Qed.

Lemma read_makefile_after_build
      (fs : FS) (ctx : Context) (makefile database : string) :
  Os.read (after_build fs ctx makefile database) "Makefile" = Some makefile.
Proof.
  unfold after_build. rewrite read_put_other.
  - exact (read_put fs "Makefile" _ _ (key_makefile fs)).
  - intros loc Hk. rewrite key_put in Hk |- *.
    exact (key_database_not_makefile fs ctx loc Hk).
Qed.

Lemma read_database_after_build
      (fs : FS) (ctx : Context) (makefile database : string)
      (loc : list string) :
  Os.key fs (database_path ctx) = Some loc ->
  Os.read (after_build fs ctx makefile database) (database_path ctx)
  = Some database.
Proof.
  intros Hk. unfold after_build.
  apply (read_put _ _ _ loc). rewrite key_put. exact Hk.
Qed.

Lemma after_build_again (fs : FS) (ctx : Context) (makefile database : string) :
  after_build (after_build fs ctx makefile database) ctx makefile database
  = after_build fs ctx makefile database.
Proof.
  set (fs1 := after_build fs ctx makefile database).
  unfold after_build at 1.
  rewrite (put_again fs1 "Makefile" makefile)
    by apply read_makefile_after_build.
  destruct (Os.key fs (database_path ctx)) as [loc|] eqn:Hk.
  - apply put_again. exact (read_database_after_build fs ctx _ _ loc Hk).
  - unfold Os.put. subst fs1. unfold after_build.
    rewrite !key_put, Hk. reflexivity.
Qed.

Lemma can_open_w_after_build (fs : FS) (ctx : Context)
      (makefile database p : string) :
  can_open_w fs p -> can_open_w (after_build fs ctx makefile database) p.
Proof.
  assert (Hput : forall q text f,
             can_open_w f p -> can_open_w (Os.put q text f) p).
  { intros q text f. unfold Os.put.
    destruct (Os.key f q) as [loc|]; [|auto].
    apply can_open_w_congr; try reflexivity.
    intros l _ Hs. cbn [Os.set_file fs_files].
    destruct (decide (loc = l)) as [<-|Hne].
    - rewrite lookup_insert_eq. eauto.
    - rewrite lookup_insert_ne by exact Hne. exact Hs. }
  intros H. unfold after_build. apply Hput, Hput, H.
Qed.

(** Two environments that answer the scans alike and know the same
    entry script generate alike. *)
Lemma build_ext (env1 env2 : Env) (ctx : Context) (fs : FS) :
  (forall s, In s (_sources ctx) ->
             run env1 (scan_command ctx s) = run env2 (scan_command ctx s)) ->
  main_file env1 = main_file env2 ->
  build env1 ctx fs = build env2 ctx fs.
Proof.
  intros Hrun Hmain. unfold build.
  rewrite (comprehension_ext (mk_object env1 ctx) (mk_object env2 ctx)).
  - unfold bind, lift.
    destruct (comprehension (mk_object env2 ctx) (_sources ctx)) as [objects|e];
      [|reflexivity].
    assert (Hentry : comprehension (database_entry env1) objects
                     = comprehension (database_entry env2) objects).
    { apply comprehension_ext. intros o _.
      unfold database_entry, root_dir. rewrite Hmain. reflexivity. }
    rewrite Hentry. reflexivity.
  - intros s Hs. unfold mk_object. rewrite (Hrun s Hs). reflexivity.
Qed.

Lemma build_again (env : Env) (ctx : Context) (fs0 fs1 : FS) :
  build env ctx fs0 = (fs1, Ok tt) ->
  build env ctx fs1 = (fs1, Ok tt).
Proof.
  intros H.
  destruct (build_inv env ctx fs0 fs1 H)
    as (objects & data & Hobj & Hdata & Hmk & Hdb).
  rewrite (build_run env ctx fs0 objects data Hobj Hdata Hmk Hdb) in H.
  injection H as <-.
  rewrite (build_run env ctx _ objects data Hobj Hdata
             (can_open_w_after_build _ _ _ _ _ Hmk)
             (can_open_w_after_build _ _ _ _ _ Hdb)).
  rewrite after_build_again. reflexivity.
Qed.

(** C9: if a generation returned, generating again on the same
    configuration, with the compiler answering the scans as before and
    the same entry script, returns too and leaves the filesystem as
    the first generation left it: both artifacts have the same bytes,
    the earlier texts were replaced and not extended. *)
Theorem build_twice_same_artifacts
        (env1 env2 : Env) (ctx : Context) (fs0 fs1 : FS) :
  (forall s, In s (_sources ctx) ->
             run env1 (scan_command ctx s) = run env2 (scan_command ctx s)) ->
  main_file env1 = main_file env2 ->
  build env1 ctx fs0 = (fs1, Ok tt) ->
  build env2 ctx fs1 = (fs1, Ok tt) /\
  Os.read (fst (build env2 ctx fs1)) "Makefile" = Os.read fs1 "Makefile" /\
  Os.read (fst (build env2 ctx fs1)) (database_path ctx)
  = Os.read fs1 (database_path ctx) /\
  Os.read fs1 "Makefile" = Some (spec_makefile env1 ctx) /\
  is_Some (Os.read fs1 (database_path ctx)).
Proof.
  intros Hrun Hmain H1.
  assert (H2 : build env2 ctx fs1 = (fs1, Ok tt)).
  { rewrite <- (build_ext env1 env2 ctx fs1 Hrun Hmain).
    exact (build_again env1 ctx fs0 fs1 H1). }
  rewrite H2. cbn [fst]. repeat split; try reflexivity.
  - destruct (build_inv env1 ctx fs0 fs1 H1)
      as (objects & data & Hobj & Hdata & Hmk & Hdb).
    assert (Hscan : scans_succeed env1 ctx).
    { intros s Hs.
      destruct (comprehension_inv _ _ _ Hobj s Hs) as [o Ho].
      exact (mk_object_inv env1 ctx s o Ho). }
    pose proof (makefile_text_after_build env1 ctx fs0 Hscan Hmk) as Hm.
    rewrite H1 in Hm. exact Hm.
  - destruct (build_inv env1 ctx fs0 fs1 H1)
      as (objects & data & Hobj & Hdata & Hmk & Hdb).
    rewrite (build_run env1 ctx fs0 objects data Hobj Hdata Hmk Hdb) in H1.
    injection H1 as <-.
    destruct (can_open_w_key _ _ Hdb) as [loc Hk].
    rewrite (read_database_after_build fs0 ctx _ _ loc Hk). eauto.
Qed.

End Regeneration.

Lemma build_writes_makefile_witness :
  Os.read (fst (build Sample.scan_env Sample.app_ctx Sample.built_fs)) "Makefile"
  = Some ("build/app: build/main.o" +:+ Py.nl
          +:+ Py.tab +:+ "cc   -o build/app build/main.o" +:+ Py.nl
          +:+ "build/main.o: main.c include/app.h" +:+ Py.nl
          +:+ Py.tab +:+ "cc -c  -Iinclude -o build/main.o main.c" +:+ Py.nl).
Proof.
  apply (build_writes_makefile Sample.scan_env Sample.app_ctx Sample.built_fs).
  - intros s [<-|[]]. reflexivity.
  - reflexivity.
Defined.

Lemma build_writes_database_witness :
  let entries :=
    [Json.JObject
       [("directory", Json.JString "/proj/build.py");
        ("command", Json.JString "cc -c  -Iinclude -o build/main.o main.c");
        ("file", Json.JString "main.c")]] in
  snd (build Sample.good_env Sample.app_ctx Sample.built_fs) = Ok tt /\
  Os.read (fst (build Sample.good_env Sample.app_ctx Sample.built_fs))
          "build/compile_commands.json"
  = Some (Json.dumps_indent4 (Json.JArray entries)) /\
  length entries = 1 /\
  forall i s, nth_error ["main.c"] i = Some s ->
              nth_error entries i
              = Some (Json.JObject
                        [("directory", Json.JString "/proj/build.py");
                         ("command",
                          Json.JString (compile_command_of Sample.app_ctx s));
                         ("file", Json.JString s)]).
Proof.
  apply (build_writes_database Sample.good_env Sample.app_ctx Sample.built_fs
           "/proj/build.py").
  - intros s _. reflexivity.
  - reflexivity.
  - reflexivity.
  - reflexivity.
Defined.

Lemma build_twice_same_artifacts_witness :
  let fs1 := fst (build Sample.good_env Sample.app_ctx Sample.built_fs) in
  build Sample.good_env Sample.app_ctx fs1 = (fs1, Ok tt) /\
  Os.read (fst (build Sample.good_env Sample.app_ctx fs1)) "Makefile"
  = Os.read fs1 "Makefile" /\
  Os.read (fst (build Sample.good_env Sample.app_ctx fs1))
          (database_path Sample.app_ctx)
  = Os.read fs1 (database_path Sample.app_ctx) /\
  Os.read fs1 "Makefile" = Some (spec_makefile Sample.good_env Sample.app_ctx) /\
  is_Some (Os.read fs1 (database_path Sample.app_ctx)).
Proof.
  apply (build_twice_same_artifacts Sample.good_env Sample.good_env
           Sample.app_ctx Sample.built_fs).
  - intros s _. reflexivity.
  - reflexivity.
  - vm_compute. reflexivity.
Defined.

(** The text of the database in the example of the specification. *)
Example database_text_example :
  Os.read (fst (build Sample.good_env Sample.app_ctx Sample.built_fs))
          "build/compile_commands.json"
  = Some ("[" +:+ Py.nl
          +:+ "    {" +:+ Py.nl
          +:+ "        " +:+ String Py.DQUOTE "directory" +:+ String Py.DQUOTE ": "
          +:+ String Py.DQUOTE "/proj/build.py" +:+ String Py.DQUOTE "," +:+ Py.nl
          +:+ "        " +:+ String Py.DQUOTE "command" +:+ String Py.DQUOTE ": "
          +:+ String Py.DQUOTE "cc -c  -Iinclude -o build/main.o main.c"
          +:+ String Py.DQUOTE "," +:+ Py.nl
          +:+ "        " +:+ String Py.DQUOTE "file" +:+ String Py.DQUOTE ": "
          +:+ String Py.DQUOTE "main.c" +:+ String Py.DQUOTE EmptyString +:+ Py.nl
          +:+ "    }" +:+ Py.nl
          +:+ "]").
Proof. vm_compute. reflexivity. Qed.

(** * Further properties of the program *)

(** ** Flag accumulation *)

Section Flags.

Lemma nonempty_append_l (s t : string) :
  Py.nonempty s = true -> Py.nonempty (s +:+ t) = true.
Proof. destruct s; [discriminate|reflexivity]. Qed.

Lemma join_merge_head (s t : string) (l : list string) :
  Py.join " " (((s +:+ " ") +:+ t) :: l) = Py.join " " (s :: t :: l).
Proof.
  unfold Py.join.
  change (String.concat " " (s :: t :: l))
    with (s +:+ " " +:+ String.concat " " (t :: l)).
  destruct l as [|u l].
  - cbn [String.concat]. apply append_assoc.
  - change (String.concat " " (((s +:+ " ") +:+ t) :: u :: l))
      with (((s +:+ " ") +:+ t) +:+ " " +:+ String.concat " " (u :: l)).
    change (String.concat " " (t :: u :: l))
      with (t +:+ " " +:+ String.concat " " (u :: l)).
    rewrite !append_assoc. reflexivity.
Qed.

(** From a flag string that is not empty every token, empty or not,
    comes after one more space. *)
Lemma accumulate_flags_from_nonempty (s : string) (tokens : list string) :
  Py.nonempty s = true ->
  accumulate_flags s tokens = Py.join " " (s :: tokens).
Proof.
  revert s. induction tokens as [|t tokens IH]; intros s Hs.
  - reflexivity.
  - unfold accumulate_flags. cbn [fold_left]. rewrite Hs.
    fold (accumulate_flags ((s +:+ " ") +:+ t) tokens).
    rewrite IH by (rewrite append_assoc; apply nonempty_append_l, Hs).
    apply join_merge_head.
Qed.

Lemma accumulate_flags_from_empty (tokens : list string) :
  accumulate_flags EmptyString tokens
  = Py.join " " (drop_leading_empty tokens).
Proof.
  induction tokens as [|t tokens IH]; [reflexivity|].
  cbn [drop_leading_empty].
  destruct t as [|a t].
  - cbn [Py.nonempty]. exact IH.
  - cbn [Py.nonempty]. unfold accumulate_flags. cbn [fold_left Py.nonempty].
    change (EmptyString +:+ String a t) with (String a t).
    fold (accumulate_flags (String a t) tokens).
    apply accumulate_flags_from_nonempty. reflexivity.
Qed.

(** X1: [add_flag] changes the flag string and nothing else.  On a flag
    string that is not empty the result is the old string and all the
    tokens joined by single spaces, empty tokens included; on an empty
    flag string the empty tokens at the front leave no trace and the
    rest is joined by single spaces. *)
Theorem add_flag_joins (x : Py.str_or_list) (c : Context) :
  add_flag x c
  = set_flags
      (if Py.nonempty (_flags c)
       then Py.join " " (_flags c :: Py.as_list x)
       else Py.join " " (drop_leading_empty (Py.as_list x)))
      c.
Proof.
  rewrite add_flag_spec.
  destruct (_flags c) as [|a s] eqn:E; cbn [Py.nonempty].
  - rewrite accumulate_flags_from_empty. reflexivity.
  - rewrite accumulate_flags_from_nonempty by reflexivity. reflexivity.
Qed.

(** X2: on a configuration whose flag string is empty, adding a preset
    of [default_flags] gives the preset's tokens joined by single
    spaces, for either build type. *)
Theorem add_flag_default_flags (type : BuildType) (c : Context) :
  _flags c = EmptyString ->
  _flags (add_flag (Py.Lst (default_flags type)) c)
  = Py.join " " (default_flags type).
Proof.
  intros Hc. rewrite add_flag_spec, Hc, accumulate_flags_from_empty.
  cbn [set_flags _flags]. destruct type; reflexivity.
Qed.

Lemma add_flag_default_flags_witness :
  _flags (add_flag (Py.Lst (default_flags DEBUG)) Sample.app_ctx)
  = "-g -O0 -Wall -Wextra -Wpedantic -Wnull-dereference -fsanitize=address,undefined -fno-omit-frame-pointer".
Proof.
  apply (add_flag_default_flags DEBUG Sample.app_ctx). reflexivity.
Defined.

Example add_flag_empty_tokens :
  _flags (add_flag (Py.Lst [""; ""; "-O2"; ""; "-g"]) Sample.fresh_ctx)
  = "-O2  -g".
Proof. reflexivity. Qed.

End Flags.

(** ** What a run of calls does to the lists *)

Section Accumulators.

Variable env : Env.

(** Whatever way [add_dependency] ends, it has appended its batch to the
    dependency list and kept the sources, the includes and the target. *)
Lemma add_dependency_frame (x : Py.str_or_list) (c : Context) :
  let c' := fst (add_dependency env x c) in
  _sources c' = _sources c /\
  _includes c' = _includes c /\
  _dependencies c' = _dependencies c ++ Py.as_list x /\
  _name c' = _name c /\
  _compiler c' = _compiler c /\
  _build_dir c' = _build_dir c.
Proof.
  unfold add_dependency, bind, modify, gets, ret. cbn beta.
  set (c1 := set_dependencies _ c).
  pose proof (for_each_lift_state (assert_installed env) (Py.as_list x) c1) as Hst.
  destruct (for_each (Py.as_list x) _ c1) as [c1' [[]|e]]; cbn [fst] in Hst;
    subst c1'; [|cbn; repeat split; reflexivity].
  unfold lift.
  destruct (Py.nonempty (_flags c1));
    destruct (pkgconfig_cflags env (Py.as_list x));
    destruct (pkgconfig_libs env (Py.as_list x));
    cbn; repeat split; reflexivity.
Qed.

(** X3: after any run of calls, failed [add_dependency] calls included,
    the sources, the includes and the dependency names are the earlier
    lists followed by the arguments of the respective calls in call
    order, nothing dropped and nothing merged, and name, compiler and
    output directory are the ones before. *)
Theorem apply_calls_accumulates (ks : list call) (c : Context) :
  let c' := apply_calls env ks c in
  _sources c' = _sources c ++ sources_of ks /\
  _includes c' = _includes c ++ includes_of ks /\
  _dependencies c' = _dependencies c ++ dependencies_of ks /\
  _name c' = _name c /\
  _compiler c' = _compiler c /\
  _build_dir c' = _build_dir c.
Proof.
  unfold apply_calls. revert c.
  induction ks as [|k ks IH]; intros c; cbn [fold_left].
  - cbn. rewrite !app_nil_r. repeat split; reflexivity.
  - specialize (IH (apply_call env k c)). cbv zeta in IH |- *.
    destruct IH as (Hs & Hi & Hd & Hn & Hc & Hb).
    rewrite Hs, Hi, Hd, Hn, Hc, Hb.
    unfold sources_of, includes_of, dependencies_of. cbn [flat_map].
    destruct k as [x|x|x|x]; cbn [apply_call].
    + cbn. rewrite <- !app_assoc. repeat split; reflexivity.
    + rewrite add_include_spec. cbn. rewrite <- !app_assoc.
      repeat split; reflexivity.
    + rewrite add_flag_spec. cbn. repeat split; reflexivity.
    + destruct (add_dependency_frame x c) as (Hs' & Hi' & Hd' & Hn' & Hc' & Hb').
      rewrite Hs', Hi', Hd', Hn', Hc', Hb'. cbn [app].
      rewrite <- !app_assoc. repeat split; reflexivity.
Qed.

End Accumulators.

(** ** The outcomes of [add_dependency] *)

Section DependencyOutcomes.

Variable env : Env.

Lemma for_each_lift_ok_inv {S A : Type} (f : A -> result unit) (l : list A)
      (s : S) :
  snd (for_each l (fun d => lift (f d)) s) = Ok tt ->
  forall d, In d l -> f d = Ok tt.
Proof.
  induction l as [|x l IH]; intros H d Hd; [destruct Hd|].
  cbn [for_each] in H. unfold bind at 1, lift at 1 in H.
  destruct (f x) as [[]|e] eqn:Hx; [|discriminate H].
  destruct Hd as [<-|Hd]; [exact Hx|exact (IH H d Hd)].
Qed.

Lemma assert_installed_ok_inv (d : string) :
  assert_installed env d = Ok tt -> pkgconfig_is_installed env d = true.
Proof.
  unfold assert_installed.
  destruct (pkgconfig_is_installed env d); [reflexivity|discriminate].
Qed.

(** X4: when every package of the batch is installed but the
    [-cflags] query exits with a non-zero status, [add_dependency]
    raises and leaves the configuration half changed: the batch is on
    the dependency list and a flag string that was not empty has gained
    a trailing space; the library string is unchanged. *)
Theorem add_dependency_cflags_failure (dep : Py.str_or_list) (ctx : Context) :
  (forall d, In d (Py.as_list dep) -> pkgconfig_is_installed env d = true) ->
  returncode (run env (["pkg-config"; "-cflags"] ++ Py.as_list dep)) <> 0%Z ->
  add_dependency env dep ctx
  = (mkContext (_sources ctx) (_includes ctx)
       (_dependencies ctx ++ Py.as_list dep)
       (if Py.nonempty (_flags ctx) then _flags ctx +:+ " " else _flags ctx)
       (_libs ctx) (_name ctx) (_compiler ctx) (_build_dir ctx),
     Raise (Exception "`pkg-config -cflags` failed")).
Proof.
  intros Hall Hc.
  unfold add_dependency, bind, modify, gets, ret. cbn beta.
  rewrite for_each_lift_ok
    by (intros d Hd; apply assert_installed_ok, Hall, Hd).
  unfold lift, pkgconfig_cflags.
  apply Z.eqb_neq in Hc. rewrite Hc.
  cbn [negb set_dependencies _flags].
  destruct (Py.nonempty (_flags ctx)); reflexivity.
Qed.

(** X5: when the packages are installed and the [-cflags] query
    succeeds but the [-libs] query exits with a non-zero status,
    [add_dependency] raises after the compile flags have been merged:
    the dependency list and the flag string are those of a successful
    call, the library string is the old one. *)
Theorem add_dependency_libs_failure (dep : Py.str_or_list) (ctx : Context) :
  (forall d, In d (Py.as_list dep) -> pkgconfig_is_installed env d = true) ->
  returncode (run env (["pkg-config"; "-cflags"] ++ Py.as_list dep)) = 0%Z ->
  returncode (run env (["pkg-config"; "-libs"] ++ Py.as_list dep)) <> 0%Z ->
  add_dependency env dep ctx
  = (mkContext (_sources ctx) (_includes ctx)
       (_dependencies ctx ++ Py.as_list dep)
       ((if Py.nonempty (_flags ctx) then _flags ctx +:+ " " else _flags ctx)
        +:+ Py.strip (stdout (run env (["pkg-config"; "-cflags"]
                                         ++ Py.as_list dep))))
       (_libs ctx) (_name ctx) (_compiler ctx) (_build_dir ctx),
     Raise (Exception "pkg-config -libs failed")).
Proof.
  intros Hall Hc Hl.
  unfold add_dependency, bind, modify, gets, ret. cbn beta.
  rewrite for_each_lift_ok
    by (intros d Hd; apply assert_installed_ok, Hall, Hd).
  unfold lift, pkgconfig_cflags, pkgconfig_libs.
  apply Z.eqb_neq in Hl. rewrite Hc, Hl.
  cbn [Z.eqb negb set_dependencies _flags].
  destruct (Py.nonempty (_flags ctx)); reflexivity.
Qed.

(** X6: [add_dependency] returns exactly when every package of the
    batch passes the installed check and both flag queries exit with
    status 0. *)
Theorem add_dependency_returns_iff (dep : Py.str_or_list) (ctx : Context) :
  snd (add_dependency env dep ctx) = Ok tt <->
  (forall d, In d (Py.as_list dep) -> pkgconfig_is_installed env d = true) /\
  returncode (run env (["pkg-config"; "-cflags"] ++ Py.as_list dep)) = 0%Z /\
  returncode (run env (["pkg-config"; "-libs"] ++ Py.as_list dep)) = 0%Z.
Proof.
  split.
  - unfold add_dependency, bind, modify, gets, ret. cbn beta.
    set (c1 := set_dependencies _ ctx).
    pose proof (for_each_lift_ok_inv (assert_installed env) (Py.as_list dep) c1)
      as Hinv.
    pose proof (for_each_lift_state (assert_installed env) (Py.as_list dep) c1)
      as Hst.
    destruct (for_each (Py.as_list dep) _ c1) as [c1' [[]|e]];
      cbn [fst snd] in Hst, Hinv; subst c1'; [|discriminate].
    unfold lift, pkgconfig_cflags, pkgconfig_libs.
    destruct (returncode (run env (["pkg-config"; "-cflags"] ++ Py.as_list dep))
              =? 0)%Z eqn:Ec;
      destruct (returncode (run env (["pkg-config"; "-libs"] ++ Py.as_list dep))
                =? 0)%Z eqn:El;
      destruct (Py.nonempty (_flags c1)); cbn [negb fst snd];
      try discriminate.
    all: intros _; split;
      [intros d Hd; apply assert_installed_ok_inv, (Hinv eq_refl d Hd)
      |split; apply Z.eqb_eq; assumption].
  - intros (Hall & Hc & Hl).
    rewrite (add_dependency_success env dep ctx Hall Hc Hl). reflexivity.
Qed.

End DependencyOutcomes.

Lemma add_dependency_cflags_failure_witness :
  add_dependency Scenario.cflags_fail_env (Py.Lst ["zlib"; "libpng"])
                 Scenario.flagged_ctx
  = (mkContext ["main.c"] [] ["zlib"; "libpng"] "-O2 " "-lm" "app" "cc" "build",
     Raise (Exception "`pkg-config -cflags` failed")).
Proof.
  apply (add_dependency_cflags_failure Scenario.cflags_fail_env
           (Py.Lst ["zlib"; "libpng"]) Scenario.flagged_ctx).
  - intros d _. reflexivity.
  - discriminate.
Defined.

Lemma add_dependency_libs_failure_witness :
  add_dependency Scenario.libs_fail_env (Py.Str "zlib") Scenario.flagged_ctx
  = (mkContext ["main.c"] [] ["zlib"] "-O2 -DZ" "-lm" "app" "cc" "build",
     Raise (Exception "pkg-config -libs failed")).
Proof.
  apply (add_dependency_libs_failure Scenario.libs_fail_env (Py.Str "zlib")
           Scenario.flagged_ctx).
  - intros d _. reflexivity.
  - reflexivity.
  - discriminate.
Defined.

(** X7: when every package of the batch is installed and both flag
    queries exit with status 0, [add_dependency] returns with the batch
    appended to the dependency list, the stripped compile flags appended
    to the flag string, after a space if that string was not empty, and
    the stripped link flags appended to the library string directly. *)
Theorem add_dependency_success_state
        (env : Env) (dep : Py.str_or_list) (ctx : Context) :
  (forall d, In d (Py.as_list dep) -> pkgconfig_is_installed env d = true) ->
  returncode (run env (["pkg-config"; "-cflags"] ++ Py.as_list dep)) = 0%Z ->
  returncode (run env (["pkg-config"; "-libs"] ++ Py.as_list dep)) = 0%Z ->
  add_dependency env dep ctx
  = (mkContext (_sources ctx) (_includes ctx)
       (_dependencies ctx ++ Py.as_list dep)
       ((if Py.nonempty (_flags ctx) then _flags ctx +:+ " " else _flags ctx)
        +:+ Py.strip (stdout (run env (["pkg-config"; "-cflags"]
                                         ++ Py.as_list dep))))
       (_libs ctx
        +:+ Py.strip (stdout (run env (["pkg-config"; "-libs"]
                                         ++ Py.as_list dep))))
       (_name ctx) (_compiler ctx) (_build_dir ctx),
     Ok tt).
Proof.
  intros Hall Hc Hl.
  unfold add_dependency, bind, modify, gets, ret. cbn beta.
  rewrite for_each_lift_ok
    by (intros d Hd; apply assert_installed_ok, Hall, Hd).
  unfold lift, pkgconfig_cflags, pkgconfig_libs. rewrite Hc, Hl.
  cbn [Z.eqb negb set_dependencies _flags].
  destruct (Py.nonempty (_flags ctx)); reflexivity.
Qed.

Lemma add_dependency_success_state_witness :
  add_dependency Sample.pkg_env (Py.Str "zlib") Scenario.flagged_ctx
  = (mkContext ["main.c"] [] ["zlib"] "-O2 -I/usr/include/zlib" "-lm-lz"
               "app" "cc" "build",
     Ok tt).
Proof.
  apply (add_dependency_success_state Sample.pkg_env (Py.Str "zlib")
           Scenario.flagged_ctx).
  - intros d [<-|[]]. reflexivity.
  - reflexivity.
  - reflexivity.
Defined.

(** ** Toolchain discovery and package variables *)

Section Toolchain.

Variable env : Env.

(** X8: [get_c_compiler] returns the first of [cc], [gcc], [clang] that
    [which] finds, and raises when [which] finds none of them. *)
Theorem get_c_compiler_first_found :
  get_c_compiler env
  = match List.find (which_finds env) compiler_candidates with
    | Some c => Ok c
    | None => Raise (Exception "no c compiler found")
    end.
Proof.
  unfold get_c_compiler, compiler_candidates, which_finds. cbn [List.find].
  destruct (returncode (run env ["which"; "cc"]) =? 0)%Z; [reflexivity|].
  destruct (returncode (run env ["which"; "gcc"]) =? 0)%Z; [reflexivity|].
  destruct (returncode (run env ["which"; "clang"]) =? 0)%Z; reflexivity.
Qed.

Lemma get_c_compiler_cases :
  (exists c, get_c_compiler env = Ok c /\ In c compiler_candidates /\
             which_finds env c = true) \/
  (get_c_compiler env = Raise (Exception "no c compiler found") /\
   forall c, In c compiler_candidates -> which_finds env c = false).
Proof.
  unfold get_c_compiler, compiler_candidates, which_finds.
  destruct (returncode (run env ["which"; "cc"]) =? 0)%Z eqn:E1.
  { left. exists "cc". cbn. auto. }
  destruct (returncode (run env ["which"; "gcc"]) =? 0)%Z eqn:E2.
  { left. exists "gcc". cbn. auto. }
  destruct (returncode (run env ["which"; "clang"]) =? 0)%Z eqn:E3.
  { left. exists "clang". cbn. auto 6. }
  right. split; [reflexivity|].
  intros c [<-|[<-|[<-|[]]]]; assumption.
Qed.

(** X9: [Context.default] fails only when no compiler is found, and
    then before anything is done to the filesystem; otherwise it returns
    a configuration with empty accumulators, the output directory
    [build] and a compiler that [which] found, whatever [os.mkdir]
    did. *)
Theorem Context_default_outcomes (name : string) (fs : FS) :
  (Context_default env name fs
   = (fs, Raise (Exception "no c compiler found")) /\
   forall c, In c compiler_candidates -> which_finds env c = false) \/
  (exists c,
     In c compiler_candidates /\ which_finds env c = true /\
     Context_default env name fs
     = (fst (Os.mkdir "build" fs),
        Ok (mkContext [] [] [] EmptyString EmptyString name c "build"))).
Proof.
  unfold Context_default, bind, lift.
  destruct get_c_compiler_cases as [(c & Hc & Hin & Hw)|[Hc Hall]];
    rewrite Hc.
  - right. exists c. split; [exact Hin|]. split; [exact Hw|].
    unfold Context_init, build_dir_setter, bind.
    rewrite make_dir_never_raises. reflexivity.
  - left. split; [reflexivity|exact Hall].
Qed.

End Toolchain.

Example get_c_compiler_gcc_only :
  get_c_compiler Scenario.gcc_only_env = Ok "gcc".
Proof. reflexivity. Qed.

Example Context_default_no_tool :
  Context_default Scenario.no_tool_env "app" Sample.empty_fs
  = (Sample.empty_fs, Raise (Exception "no c compiler found")).
Proof. reflexivity. Qed.

(** ** Stripping *)

Section Strip.

Lemma rstrip_keeps_head (c : ascii) (r : string) :
  Py.isspace c = false ->
  Py.rstrip (String c r) = String c (Py.rstrip r).
Proof.
  intros Hc. cbn [Py.rstrip]. rewrite Hc.
  destruct (Py.rstrip r); reflexivity.
Qed.

Lemma rstrip_idempotent (s : string) : Py.rstrip (Py.rstrip s) = Py.rstrip s.
Proof.
  induction s as [|c r IH]; [reflexivity|].
  cbn [Py.rstrip].
  destruct (Py.rstrip r) as [|a r'] eqn:E.
  - destruct (Py.isspace c) eqn:Hc; [reflexivity|].
    cbn [Py.rstrip]. rewrite Hc. reflexivity.
  - change (Py.rstrip (String c (String a r')))
      with (match Py.rstrip (String a r') with
            | EmptyString =>
                if Py.isspace c then EmptyString else String c EmptyString
            | r'' => String c r''
            end).
    rewrite IH. reflexivity.
Qed.

(** What [lstrip] returns is empty or starts with a character that is
    not white space. *)
Lemma lstrip_head (s : string) :
  Py.lstrip s = EmptyString \/
  exists c r, Py.lstrip s = String c r /\ Py.isspace c = false.
Proof.
  induction s as [|c r IH]; [left; reflexivity|].
  cbn [Py.lstrip]. destruct (Py.isspace c) eqn:Hc; [exact IH|].
  right. exists c, r. split; [reflexivity|exact Hc].
Qed.

Lemma lstrip_fixed (c : ascii) (r : string) :
  Py.isspace c = false -> Py.lstrip (String c r) = String c r.
Proof. intros Hc. cbn [Py.lstrip]. rewrite Hc. reflexivity. Qed.

Lemma strip_idempotent (s : string) : Py.strip (Py.strip s) = Py.strip s.
Proof.
  unfold Py.strip.
  destruct (lstrip_head s) as [E|(c & r & E & Hc)]; rewrite E.
  - reflexivity.
  - rewrite (rstrip_keeps_head c r Hc), (lstrip_fixed c _ Hc).
    rewrite <- (rstrip_keeps_head c r Hc). apply rstrip_idempotent.
Qed.

(** The first character of a stripped string is not white space. *)
Lemma strip_head (s : string) (c : ascii) (r : string) :
  Py.strip s = String c r -> Py.isspace c = false.
Proof.
  unfold Py.strip.
  destruct (lstrip_head s) as [E|(c' & r' & E & Hc)]; rewrite E.
  - discriminate.
  - rewrite (rstrip_keeps_head c' r' Hc). intros H. injection H as <- _.
    exact Hc.
Qed.

(** The last character of what [rstrip] returns is not white space. *)
Lemma rstrip_last (s r : string) (c : ascii) :
  Py.rstrip s = r +:+ String c EmptyString -> Py.isspace c = false.
Proof.
  revert r. induction s as [|a s IH]; intros r H.
  - destruct r; discriminate H.
  - cbn [Py.rstrip] in H.
    destruct (Py.rstrip s) as [|b t] eqn:E.
    + destruct (Py.isspace a) eqn:Ha.
      * destruct r; discriminate H.
      * destruct r as [|a' r'].
        -- injection H as <-. exact Ha.
        -- rewrite append_cons in H. injection H as _ H.
           destruct r'; discriminate H.
    + destruct r as [|a' r'].
      * discriminate H.
      * rewrite append_cons in H. injection H as _ H.
        exact (IH r' H).
Qed.

(** X10: [pkgconfig_get_variable] raises its no-variable exception
    exactly when the provider exits with a non-zero status; otherwise it
    returns the provider's output stripped, a value that stripping again
    leaves as it is and that neither starts nor ends with white space. *)
Theorem pkgconfig_get_variable_stripped (env : Env) (pkg var : string) :
  let result := run env ["pkg-config"; "--variable=" +:+ var; pkg] in
  (returncode result <> 0%Z /\
   pkgconfig_get_variable env pkg var
   = Raise (Exception ("no variable " +:+ var +:+ " for package " +:+ pkg))) \/
  (returncode result = 0%Z /\
   exists v, pkgconfig_get_variable env pkg var = Ok v /\
             v = Py.strip (stdout result) /\
             Py.strip v = v /\
             (forall c r, v = String c r -> Py.isspace c = false) /\
             (forall r c, v = r +:+ String c EmptyString ->
                          Py.isspace c = false)).
Proof.
  cbv zeta. unfold pkgconfig_get_variable.
  destruct (returncode (run env ["pkg-config"; "--variable=" +:+ var; pkg])
            =? 0)%Z eqn:E; cbn [negb].
  - right. split; [apply Z.eqb_eq, E|].
    eexists. split; [reflexivity|]. split; [reflexivity|].
    split; [apply strip_idempotent|]. split.
    + intros c r H. exact (strip_head _ c r H).
    + intros r c H. exact (rstrip_last _ r c H).
  - left. split; [apply Z.eqb_neq, E|reflexivity].
Qed.

Example pkgconfig_get_variable_padded :
  pkgconfig_get_variable Scenario.variable_env "zlib" "pcfiledir"
  = Ok "/usr/lib/pkgconfig".
Proof. reflexivity. Qed.

End Strip.

(** ** Generation that does not go through *)

Section GenerationFailures.

Lemma comprehension_first_failure {A B : Type} (f : A -> result B)
      (pre post : list A) (x : A) (e : exn) :
  (forall y, In y pre -> exists z, f y = Ok z) ->
  f x = Raise e ->
  comprehension f (pre ++ x :: post) = Raise e.
Proof.
  induction pre as [|y pre IH]; intros Hpre Hx; cbn [app comprehension].
  - rewrite Hx. reflexivity.
  - destruct (Hpre y (or_introl eq_refl)) as [z Hz]. rewrite Hz.
    rewrite IH; [reflexivity| |exact Hx].
    intros y' Hy'. apply Hpre. right. exact Hy'.
Qed.

Variable env : Env.

(** X11: when the scan of a source fails and the scans of all sources
    before it succeed, [build] raises the exception made for that source,
    with the compiler's diagnostic in it, and the filesystem is as it
    was: neither artifact is opened. *)
Theorem build_scan_failure
        (ctx : Context) (fs : FS) (pre post : list string) (s : string) :
  _sources ctx = pre ++ s :: post ->
  (forall y, In y pre -> returncode (run env (scan_command ctx y)) = 0%Z) ->
  returncode (run env (scan_command ctx s)) <> 0%Z ->
  build env ctx fs
  = (fs,
     Raise (Exception ("failed making a makefile entry for `" +:+ s +:+ "`:"
                       +:+ Py.nl +:+ stderr (run env (scan_command ctx s))))).
Proof.
  intros Hsrc Hpre Hs.
  unfold build, bind, lift. rewrite Hsrc.
  rewrite (comprehension_first_failure (mk_object env ctx) pre post s
             (Exception ("failed making a makefile entry for `" +:+ s +:+ "`:"
                         +:+ Py.nl +:+ stderr (run env (scan_command ctx s))))).
  - reflexivity.
  - intros y Hy. eexists. apply mk_object_ok, Hpre, Hy.
  - unfold mk_object. apply Z.eqb_neq in Hs. rewrite Hs. reflexivity.
Qed.

(** X12: when the scans succeed and both files can be opened but
    [root_dir] raises, for a configuration with at least one source,
    [build] raises that exception with the Makefile written in full and
    the compilation database left empty. *)
Theorem build_root_failure (ctx : Context) (fs : FS) (e : exn) :
  scans_succeed env ctx ->
  _sources ctx <> [] ->
  can_open_w fs "Makefile" ->
  can_open_w fs (database_path ctx) ->
  root_dir env = Raise e ->
  build env ctx fs
  = (after_build fs ctx (spec_makefile env ctx) EmptyString, Raise e).
Proof.
  intros Hscan Hne Hmk Hdb Hroot.
  rewrite (build_unfold env _ _ _ (objects_of_sources env _ Hscan) Hmk).
  rewrite makefile_of_sources.
  apply (can_open_w_beside_makefile ctx fs (spec_makefile env ctx)) in Hdb.
  destruct (open_w_ok _ _ Hdb) as (loc & Hk & Hopen).
  unfold bind, lift. rewrite Hopen.
  destruct (_sources ctx) as [|s l]; [contradiction|].
  cbn [List.map comprehension]. unfold database_entry at 1. rewrite Hroot.
  unfold after_build. rewrite (put_at _ _ _ loc Hk). reflexivity.
Qed.

(** X13: a configuration without sources generates without running
    the compiler or asking for the entry script: when both files can be
    opened [build] returns, the Makefile is the link rule with no
    prerequisite and the compilation database is the empty JSON array. *)
Theorem build_no_sources (ctx : Context) (fs : FS) :
  _sources ctx = [] ->
  can_open_w fs "Makefile" ->
  can_open_w fs (database_path ctx) ->
  build env ctx fs
  = (after_build fs ctx
       (_build_dir ctx +:+ "/" +:+ _name ctx +:+ ": " +:+ Py.nl
        +:+ Py.tab +:+ _compiler ctx +:+ " " +:+ _flags ctx +:+ " "
        +:+ _libs ctx +:+ " -o " +:+ _build_dir ctx +:+ "/" +:+ _name ctx
        +:+ " " +:+ Py.nl)
       "[]",
     Ok tt).
Proof.
  intros Hsrc Hmk Hdb.
  rewrite (build_run env ctx fs [] []); try assumption.
  - unfold makefile_of, mk_executable. rewrite Hsrc.
    cbn [List.map Py.join String.concat fst snd]. unfold Py.join.
    cbn [String.concat].
    rewrite !append_assoc, !append_empty_r. reflexivity.
  - rewrite Hsrc. reflexivity.
  - reflexivity.
Qed.

(** X14: when, with the Makefile written, the output directory cannot
    be reached, because one of its names is missing
    ([FileNotFoundError]) or is a regular file ([NotADirectoryError]),
    [build] raises that error for the path of the compilation database
    and leaves the Makefile written in full. *)
Theorem build_unreachable_output_directory
        (ctx : Context) (fs : FS) (e : oserror) :
  scans_succeed env ctx ->
  can_open_w fs "Makefile" ->
  Py.nonempty (_build_dir ctx) = true ->
  Os.lookup_dir (Os.put "Makefile" (spec_makefile env ctx) fs) (_build_dir ctx)
  = Os.Failed e ->
  build env ctx fs
  = (Os.put "Makefile" (spec_makefile env ctx) fs,
     Raise (OSError e (database_path ctx))).
Proof.
  intros Hscan Hmk Hne Hdir.
  rewrite (build_unfold env _ _ _ (objects_of_sources env _ Hscan) Hmk).
  rewrite makefile_of_sources.
  unfold bind, Os.open_w.
  rewrite (locate_database_path _ ctx Hne), Hdir.
  assert (Hp : Py.nonempty (database_path ctx) = true).
  { unfold database_path. destruct (_build_dir ctx); reflexivity. }
  rewrite Hp. reflexivity.
Qed.

End GenerationFailures.

Lemma build_scan_failure_witness :
  build Scenario.scan_b_fails_env Scenario.two_ctx Sample.built_fs
  = (Sample.built_fs,
     Raise (Exception ("failed making a makefile entry for `b.c`:" +:+ Py.nl
                       +:+ "b.c:1:10: fatal error: x.h: No such file"))).
Proof.
  apply (build_scan_failure Scenario.scan_b_fails_env Scenario.two_ctx
           Sample.built_fs ["a.c"] ["c.c"] "b.c").
  - reflexivity.
  - intros y [<-|[]]. reflexivity.
  - discriminate.
Defined.

Lemma build_root_failure_witness :
  build Scenario.no_main_env Sample.app_ctx Sample.built_fs
  = (after_build Sample.built_fs Sample.app_ctx
       (spec_makefile Scenario.no_main_env Sample.app_ctx) EmptyString,
     Raise (Exception "couldn't get this scripts name")).
Proof.
  apply (build_root_failure Scenario.no_main_env Sample.app_ctx Sample.built_fs).
  - intros s _. reflexivity.
  - discriminate.
  - reflexivity.
  - reflexivity.
  - reflexivity.
Defined.

Lemma build_no_sources_witness :
  build Scenario.no_main_env Scenario.no_source_ctx Sample.built_fs
  = (after_build Sample.built_fs Scenario.no_source_ctx
       ("build/app: " +:+ Py.nl +:+ Py.tab
        +:+ "cc -O2 -lm -o build/app " +:+ Py.nl)
       "[]",
     Ok tt).
Proof.
  apply (build_no_sources Scenario.no_main_env Scenario.no_source_ctx
           Sample.built_fs); reflexivity.
Defined.

Lemma build_unreachable_output_directory_witness :
  build Sample.good_env Scenario.nested_ctx
        (fst (Context_init "app" "cc" "out/build" Sample.empty_fs))
  = (Os.put "Makefile" (spec_makefile Sample.good_env Scenario.nested_ctx)
            Sample.empty_fs,
     Raise (OSError FileNotFoundError "out/build/compile_commands.json")).
Proof.
  apply (build_unreachable_output_directory Sample.good_env Scenario.nested_ctx
           Sample.empty_fs FileNotFoundError).
  - intros s _. reflexivity.
  - reflexivity.
  - reflexivity.
  - vm_compute. reflexivity.
Defined.

(** A regular file where the output directory should be. *)
Example build_output_directory_is_a_file :
  build Sample.good_env Sample.app_ctx Scenario.file_in_the_way_fs
  = (Os.put "Makefile" (spec_makefile Sample.good_env Sample.app_ctx)
            Scenario.file_in_the_way_fs,
     Raise (OSError NotADirectoryError "build/compile_commands.json")).
Proof. vm_compute. reflexivity. Qed.

(** An output directory spelled with a trailing slash. *)
Example build_output_directory_with_slash :
  snd (build Sample.good_env Scenario.slash_ctx Sample.built_fs) = Ok tt /\
  Os.key Sample.built_fs (database_path Scenario.slash_ctx)
  = Some ["proj"; "build"; "compile_commands.json"].
Proof. split; vm_compute; reflexivity. Qed.

(** ** Creation followed by generation *)

Section CreateThenGenerate.

Lemma is_dir_add_dir (fs : FS) (loc l : list string) :
  Os.is_dir fs l = true -> Os.is_dir (Os.add_dir loc fs) l = true.
Proof.
  unfold Os.is_dir, Os.add_dir. cbn [fs_cwd fs_dirs].
  intros H. apply orb_true_iff in H as [H|H].
  - rewrite H. reflexivity.
  - apply bool_decide_eq_true in H.
    rewrite (bool_decide_eq_true_2 (l ∈ {[ loc ]} ∪ fs_dirs fs)).
    + apply orb_true_r.
    + apply elem_of_union_r. exact H.
Qed.

Lemma is_dir_added (fs : FS) (loc : list string) :
  Os.is_dir (Os.add_dir loc fs) loc = true.
Proof.
  unfold Os.is_dir, Os.add_dir. cbn [fs_cwd fs_dirs].
  rewrite (bool_decide_eq_true_2 (loc ∈ {[ loc ]} ∪ fs_dirs fs)).
  - apply orb_true_r.
  - apply elem_of_union_l, elem_of_singleton. reflexivity.
Qed.

(** What [os.mkdir] can do to the filesystem. *)
Lemma mkdir_effect (d : string) (fs : FS) :
  (exists e, Os.mkdir d fs = (fs, Raise e)) \/
  (exists parent name slash,
     Py.nonempty d = true /\
     Os.locate fs d = Os.Found (Os.Entry parent name slash) /\
     Os.mkdir d fs = (Os.add_dir (parent ++ [name]) fs, Ok tt)).
Proof.
  unfold Os.mkdir.
  destruct (Py.nonempty d); cbn [negb]; [|left; eauto].
  destruct (Os.locate fs d) as [[parent name slash|loc]|e];
    try solve [left; eauto].
  destruct (Os.is_dir fs (parent ++ [name]) || Os.is_file fs (parent ++ [name]));
    [left; eauto|].
  destruct (bool_decide (parent ∈ fs_readonly fs)); [left; eauto|].
  right. exists parent, name, slash. auto.
Qed.

(** What a path that resolves to an entry is made of. *)
Lemma locate_entry_inv (fs : FS) (p : string)
      (parent : list string) (name : string) (slash : bool) :
  Os.locate fs p = Os.Found (Os.Entry parent name slash) ->
  exists pre k,
    Py.split "/" p = pre ++ [name] ++ repeat EmptyString k /\
    Os.walk fs (Os.start fs p) pre = Os.Found parent /\
    String.eqb name "" || String.eqb name "." = false /\
    String.eqb name ".." = false.
Proof.
  unfold Os.locate.
  destruct (drop_trailing_empty_spec (Py.split "/" p)) as [k Hk].
  destruct (Os.drop_trailing_empty (Py.split "/" p)) as [|n body] eqn:E;
    [discriminate|].
  destruct (Os.walk fs (Os.start fs p) (removelast (n :: body)))
    as [dir|e] eqn:Hw; [|discriminate].
  destruct (String.eqb (List.last (n :: body) "") ""
            || String.eqb (List.last (n :: body) "") ".") eqn:E1;
    [discriminate|].
  destruct (String.eqb (List.last (n :: body) "") "..") eqn:E2;
    [discriminate|].
  intros H. injection H as <- <- _.
  exists (removelast (n :: body)), k.
  split; [|auto].
  rewrite Hk at 1. rewrite app_assoc. f_equal.
  assert (Hnil : n :: body <> []) by discriminate.
  exact (app_removelast_last EmptyString Hnil).
Qed.

(** Once [os.mkdir] has gone through, its path names the directory it
    made. *)
Lemma lookup_dir_after_mkdir (d : string) (fs : FS) :
  snd (Os.mkdir d fs) = Ok tt ->
  exists loc, Os.lookup_dir (fst (Os.mkdir d fs)) d = Os.Found loc.
Proof.
  intros Hok.
  destruct (mkdir_effect d fs) as [[e He]|(parent & name & slash & Hd & Hl & He)];
    rewrite He in Hok |- *; [discriminate Hok|].
  cbn [fst]. exists (parent ++ [name]).
  destruct (locate_entry_inv fs d parent name slash Hl)
    as (pre & k & Hsplit & Hwalk & Hplain & Hdd).
  unfold Os.lookup_dir. rewrite Hsplit, walk_app.
  change (Os.start (Os.add_dir (parent ++ [name]) fs) d) with (Os.start fs d).
  rewrite (walk_found_mono fs _ _ _ _ (is_dir_add_dir fs (parent ++ [name])) Hwalk).
  cbn [app Os.walk]. rewrite Hplain, Hdd, is_dir_added.
  apply walk_empty_names.
Qed.

Lemma lookup_dir_after_create (d : string) (fs : FS) (loc : list string) :
  Os.lookup_dir fs d = Os.Found loc ->
  Os.lookup_dir (fst (Os.mkdir d fs)) d = Os.Found loc.
Proof.
  intros H.
  destruct (mkdir_effect d fs) as [[e He]|(parent & name & slash & _ & _ & He)];
    rewrite He; cbn [fst]; [exact H|].
  unfold Os.lookup_dir in *.
  change (Os.start (Os.add_dir (parent ++ [name]) fs) d) with (Os.start fs d).
  exact (walk_found_mono fs _ _ _ _ (is_dir_add_dir fs (parent ++ [name])) H).
Qed.

(** The directory [d/name] is the name [name] taken in the directory
    [d]. *)
Lemma lookup_dir_join (fs : FS) (d name : string) :
  Py.nonempty d = true ->
  Py.contains "/" name = false ->
  Os.lookup_dir fs (d +:+ "/" +:+ name)
  = match Os.lookup_dir fs d with
    | Os.Found dir => Os.walk fs dir [name]
    | Os.Failed e => Os.Failed e
    end.
Proof.
  intros Hd Hname. unfold Os.lookup_dir.
  change (d +:+ "/" +:+ name) with (d +:+ String "/" name).
  rewrite split_append, (split_hd_whole _ _ Hname), walk_app.
  destruct d as [|c d]; [discriminate Hd|reflexivity].
Qed.

Lemma Context_init_result (name compiler dir : string) (fs : FS) :
  Context_init name compiler dir fs
  = (fst (Os.mkdir dir fs),
     Ok (mkContext [] [] [] EmptyString EmptyString name compiler dir)).
Proof.
  unfold Context_init, build_dir_setter, bind.
  rewrite make_dir_never_raises. reflexivity.
Qed.

(** X15: creating a configuration a second time on the same output
    directory, under whatever name and compiler, leaves the filesystem
    as the first creation left it. *)
Theorem Context_init_again
        (name1 compiler1 name2 compiler2 dir : string) (fs : FS) :
  let fs1 := fst (Context_init name1 compiler1 dir fs) in
  Context_init name2 compiler2 dir fs1
  = (fs1,
     Ok (mkContext [] [] [] EmptyString EmptyString name2 compiler2 dir)).
Proof.
  cbv zeta. rewrite !Context_init_result. cbn [fst].
  destruct (mkdir_effect dir fs)
    as [[e He]|(parent & name & slash & Hd & Hl & He)]; rewrite He; cbn [fst].
  - rewrite He. reflexivity.
  - assert (Hl' : Os.locate (Os.add_dir (parent ++ [name]) fs) dir
                  = Os.Found (Os.Entry parent name slash)).
    { apply (locate_found_mono fs); [reflexivity| |exact Hl].
      apply is_dir_add_dir. }
    unfold Os.mkdir at 1. rewrite Hd, Hl', is_dir_added. reflexivity.
Qed.

Variable env : Env.

(** X16: a configuration created on a directory that [os.mkdir] made,
    or that was there already, and then put through any run of calls,
    generates: when the scans succeed, the entry script is known and,
    after the creation, the Makefile can be opened, the output directory
    allows new entries and no directory sits at the path of the
    compilation database, [build] returns with both artifacts written. *)
Theorem create_then_generate
        (name compiler dir root : string) (ks : list call) (fs : FS) :
  snd (Os.mkdir dir fs) = Ok tt \/ Os.is_directory fs dir = true ->
  main_file env = FilePath root ->
  let fs1 := fst (Context_init name compiler dir fs) in
  let ctx := apply_calls env ks
               (mkContext [] [] [] EmptyString EmptyString name compiler dir) in
  can_open_w fs1 "Makefile" ->
  Os.is_directory fs1 (dir +:+ "/compile_commands.json") = false ->
  (forall loc, Os.lookup_dir fs1 dir = Os.Found loc -> loc ∉ fs_readonly fs1) ->
  scans_succeed env ctx ->
  snd (Context_init name compiler dir fs)
  = Ok (mkContext [] [] [] EmptyString EmptyString name compiler dir) /\
  build env ctx fs1
  = (after_build fs1 ctx (spec_makefile env ctx)
                 (Json.dumps_indent4 (spec_database root ctx)),
     Ok tt).
Proof.
  intros Hdir Hroot fs1 ctx Hmk Hnodir Hperm Hscan.
  subst fs1. rewrite Context_init_result in *. cbn [fst snd] in *.
  split; [reflexivity|].
  set (fs1 := fst (Os.mkdir dir fs)) in *.
  assert (Hbd : _build_dir ctx = dir) by apply apply_calls_build_dir.
  assert (Hne : Py.nonempty dir = true).
  { destruct Hdir as [Hok|Hd].
    - destruct dir; [discriminate Hok|reflexivity].
    - unfold Os.is_directory in Hd.
      destruct (Py.nonempty dir); [reflexivity|discriminate Hd]. }
  assert (Hloc : exists loc, Os.lookup_dir fs1 dir = Os.Found loc).
  { destruct Hdir as [Hok|Hd].
    - exact (lookup_dir_after_mkdir dir fs Hok).
    - unfold Os.is_directory in Hd. rewrite Hne in Hd.
      destruct (Os.lookup_dir fs dir) as [loc|e] eqn:E; [|discriminate Hd].
      exists loc. exact (lookup_dir_after_create dir fs loc E). }
  destruct Hloc as [loc Hloc].
  assert (Hdb : can_open_w fs1 (database_path ctx)).
  { apply can_open_w_iff. exists loc, "compile_commands.json".
    split; [unfold database_path; destruct (_build_dir ctx); reflexivity|].
    split; [|split].
    - rewrite locate_database_path by (rewrite Hbd; exact Hne).
      rewrite Hbd, Hloc. reflexivity.
    - unfold Os.is_directory in Hnodir.
      assert (Hp : Py.nonempty (dir +:+ "/compile_commands.json") = true)
        by (destruct dir; reflexivity).
      rewrite Hp in Hnodir.
      change (dir +:+ "/compile_commands.json")
        with (dir +:+ "/" +:+ "compile_commands.json") in Hnodir.
      rewrite (lookup_dir_join fs1 dir "compile_commands.json" Hne eq_refl),
        Hloc in Hnodir.
      change (Os.walk fs1 loc ["compile_commands.json"])
        with (if Os.is_dir fs1 (loc ++ ["compile_commands.json"])
              then Os.Found (loc ++ ["compile_commands.json"])
              else if Os.is_file fs1 (loc ++ ["compile_commands.json"])
                   then Os.Failed NotADirectoryError
                   else Os.Failed FileNotFoundError) in Hnodir.
      destruct (Os.is_dir fs1 (loc ++ ["compile_commands.json"]));
        [discriminate Hnodir|reflexivity].
    - right. exact (Hperm loc Hloc). }
  rewrite (build_run env ctx fs1 _ _ (objects_of_sources env ctx Hscan)
             (data_of_sources env ctx root Hroot) Hmk Hdb).
  rewrite makefile_of_sources. reflexivity.
Qed.

End CreateThenGenerate.

Lemma create_then_generate_witness :
  let ks := [AddSource (Py.Str "main.c"); AddInclude (Py.Str "include")] in
  let fs1 := fst (Context_init "app" "cc" "build/" Sample.empty_fs) in
  let ctx := apply_calls Sample.good_env ks
               (mkContext [] [] [] EmptyString EmptyString "app" "cc" "build/") in
  snd (Context_init "app" "cc" "build/" Sample.empty_fs)
  = Ok (mkContext [] [] [] EmptyString EmptyString "app" "cc" "build/") /\
  build Sample.good_env ctx fs1
  = (after_build fs1 ctx (spec_makefile Sample.good_env ctx)
                 (Json.dumps_indent4 (spec_database "/proj/build.py" ctx)),
     Ok tt).
Proof.
  apply (create_then_generate Sample.good_env "app" "cc" "build/"
           "/proj/build.py"
           [AddSource (Py.Str "main.c"); AddInclude (Py.Str "include")]
           Sample.empty_fs).
  - left. reflexivity.
  - reflexivity.
  - reflexivity.
  - reflexivity.
  - intros loc _. apply not_elem_of_empty.
  - intros s _. reflexivity.
Defined.

(** ** What generation leaves alone *)

Section Frame.

Variables p q : string.

Lemma same_outside_refl (fs : FS) : same_outside p q fs fs.
Proof. unfold same_outside. auto. Qed.

Lemma same_outside_trans (fs1 fs2 fs3 : FS) :
  same_outside p q fs1 fs2 -> same_outside p q fs2 fs3 ->
  same_outside p q fs1 fs3.
Proof.
  intros (Hc & Hd & Hr & Hf) (Hc' & Hd' & Hr' & Hf'). unfold same_outside.
  rewrite Hc', Hc, Hd', Hd, Hr', Hr.
  split; [reflexivity|]. split; [reflexivity|]. split; [reflexivity|].
  intros loc Hp Hq. rewrite Hf'.
  - exact (Hf loc Hp Hq).
  - rewrite (key_congr fs1 fs2 p Hc Hd). exact Hp.
  - rewrite (key_congr fs1 fs2 q Hc Hd). exact Hq.
Qed.

Lemma same_outside_set_file (x text : string) (loc : list string) (fs : FS) :
  x = p \/ x = q ->
  Os.key fs x = Some loc ->
  same_outside p q fs (Os.set_file loc text fs).
Proof.
  intros Hx Hk. unfold same_outside.
  split; [reflexivity|]. split; [reflexivity|]. split; [reflexivity|].
  intros l Hp Hq. cbn [Os.set_file fs_files].
  apply lookup_insert_ne. destruct Hx; subst x; congruence.
Qed.

Lemma frame_bind {A B : Type} (m : M FS A) (k : A -> M FS B) :
  (forall fs, same_outside p q fs (fst (m fs))) ->
  (forall a fs, same_outside p q fs (fst (k a fs))) ->
  forall fs, same_outside p q fs (fst (bind m k fs)).
Proof.
  intros Hm Hk fs. unfold bind. specialize (Hm fs).
  destruct (m fs) as [fs' [a|e]]; cbn [fst] in Hm |- *.
  - exact (same_outside_trans _ _ _ Hm (Hk a fs')).
  - exact Hm.
Qed.

Lemma frame_open_w (x : string) :
  x = p \/ x = q -> forall fs, same_outside p q fs (fst (Os.open_w x fs)).
Proof.
  intros Hx fs.
  destruct (Os.open_w x fs) as [fs' [[]|e]] eqn:Hopen.
  - destruct (open_w_ok fs x (open_w_inv _ _ _ Hopen)) as (loc & Hk & Hopen').
    rewrite Hopen' in Hopen. injection Hopen as <-. cbn [fst].
    exact (same_outside_set_file x _ loc fs Hx Hk).
  - pose proof (open_w_raise_unchanged x fs e) as Hsame.
    rewrite Hopen in Hsame. cbn [fst snd] in Hsame |- *.
    rewrite (Hsame eq_refl). apply same_outside_refl.
Qed.

Lemma frame_write (x data : string) :
  x = p \/ x = q -> forall fs, same_outside p q fs (fst (Os.write x data fs)).
Proof.
  intros Hx fs. unfold Os.write, modify. cbn [fst].
  destruct (Os.key fs x) as [loc|] eqn:Hk.
  - exact (same_outside_set_file x _ loc fs Hx Hk).
  - apply same_outside_refl.
Qed.

Lemma frame_for_each {A : Type} (l : list A) (body : A -> M FS unit) :
  (forall a fs, same_outside p q fs (fst (body a fs))) ->
  forall fs, same_outside p q fs (fst (for_each l body fs)).
Proof.
  intros Hbody. induction l as [|a l IH]; intros fs; cbn [for_each].
  - apply same_outside_refl.
  - apply frame_bind; [apply Hbody|intros _; exact IH].
Qed.

End Frame.

(** X17: however [build] ends, it has changed nothing but the contents
    of the Makefile and of the compilation database: the directories,
    the read-only set and every other file are as before. *)
Theorem build_touches_only_artifacts (env : Env) (ctx : Context) (fs : FS) :
  same_outside "Makefile" (database_path ctx) fs (fst (build env ctx fs)).
Proof.
  revert fs. unfold build.
  repeat (apply frame_bind; [|intros ?]);
    try (intros fs; apply same_outside_refl);
    try (apply frame_open_w; auto);
    try (apply frame_write; auto).
  apply frame_for_each. intros object. apply frame_write. auto.
Qed.

(** ** The characters of the compilation database *)

Section Printable.

Lemma all_printable_append (s t : string) :
  all_printable (s +:+ t) = all_printable s && all_printable t.
Proof.
  induction s as [|c s IH]; [reflexivity|].
  rewrite append_cons. cbn [all_printable]. rewrite IH. apply andb_assoc.
Qed.

Lemma escape_char_printable (c : ascii) :
  all_printable (Json.escape_char c) = true.
Proof.
  destruct c as [[] [] [] [] [] [] [] []]; vm_compute; reflexivity.
Qed.

Lemma escape_printable (s : string) : all_printable (Json.escape s) = true.
Proof.
  induction s as [|c s IH]; [reflexivity|].
  cbn [Json.escape]. rewrite all_printable_append, escape_char_printable, IH.
  reflexivity.
Qed.

Lemma encode_printable (s : string) :
  all_printable (Json.encode_basestring_ascii s) = true.
Proof.
  unfold Json.encode_basestring_ascii. cbn [all_printable].
  rewrite all_printable_append, escape_printable. reflexivity.
Qed.

Lemma newline_indent_printable (level : nat) :
  all_printable (Json.newline_indent level) = true.
Proof.
  unfold Json.newline_indent. rewrite all_printable_append.
  generalize (4 * level). intros n.
  induction n as [|n IH]; [reflexivity|].
  cbn [Json.spaces all_printable]. cbn [all_printable] in IH.
  rewrite andb_true_l in IH |- *. exact IH.
Qed.

Lemma join_printable (sep : string) (l : list string) :
  all_printable sep = true ->
  Forall (fun s => all_printable s = true) l ->
  all_printable (Py.join sep l) = true.
Proof.
  intros Hsep Hl. unfold Py.join.
  induction Hl as [|s l Hs Hl IH]; [reflexivity|].
  destruct l as [|t l]; [exact Hs|].
  change (String.concat sep (s :: t :: l))
    with (s +:+ sep +:+ String.concat sep (t :: l)).
  rewrite !all_printable_append, Hs, Hsep, IH. reflexivity.
Qed.

Lemma separator_printable (level : nat) :
  all_printable ("," +:+ Json.newline_indent level) = true.
Proof. rewrite all_printable_append, newline_indent_printable. reflexivity. Qed.

(** What [json.dumps(..., indent=4)] returns is made of line feeds and
    printable ASCII characters only. *)
Lemma iterencode_printable :
  forall (j : Json.value) (level : nat),
    all_printable (Json.iterencode level j) = true.
Proof.
  fix IH 1. intros j level. destruct j as [s|items|members].
  - apply encode_printable.
  - destruct items as [|x items]; [reflexivity|].
    change (Json.iterencode level (Json.JArray (x :: items)))
      with ("[" +:+ Json.newline_indent (S level)
            +:+ Py.join ("," +:+ Json.newline_indent (S level))
                  (List.map (Json.iterencode (S level)) (x :: items))
            +:+ Json.newline_indent level +:+ "]").
    rewrite !all_printable_append, !newline_indent_printable.
    rewrite join_printable; [reflexivity|apply separator_printable|].
    generalize (x :: items). intros l.
    induction l as [|y l IHl]; constructor; [apply IH|exact IHl].
  - destruct members as [|x members]; [reflexivity|].
    change (Json.iterencode level (Json.JObject (x :: members)))
      with ("{" +:+ Json.newline_indent (S level)
            +:+ Py.join ("," +:+ Json.newline_indent (S level))
                  (List.map (fun kv => Json.encode_basestring_ascii (fst kv)
                                       +:+ ": "
                                       +:+ Json.iterencode (S level) (snd kv))
                            (x :: members))
            +:+ Json.newline_indent level +:+ "}").
    rewrite !all_printable_append, !newline_indent_printable.
    rewrite join_printable; [reflexivity|apply separator_printable|].
    generalize (x :: members). intros l.
    induction l as [|[k v] l IHl]; constructor; [|exact IHl].
    cbn [fst snd]. rewrite !all_printable_append, encode_printable, IH.
    reflexivity.
Qed.

(** X18: whenever [build] returns, the compilation database it wrote
    consists of line feeds and printable ASCII characters only, for
    paths, flags and a root path made of any characters with code
    points below 256. *)
Theorem build_database_printable (env : Env) (ctx : Context) (fs fs1 : FS) :
  build env ctx fs = (fs1, Ok tt) ->
  exists text, Os.read fs1 (database_path ctx) = Some text /\
               all_printable text = true.
Proof.
  intros H.
  destruct (build_inv env ctx fs fs1 H)
    as (objects & data & Hobj & Hdata & Hmk & Hdb).
  rewrite (build_run env ctx fs objects data Hobj Hdata Hmk Hdb) in H.
  injection H as <-.
  exists (Json.dumps_indent4 (Json.JArray data)). split.
  - destruct (can_open_w_key _ _ Hdb) as [loc Hk].
    exact (read_database_after_build fs ctx _ _ loc Hk).
  - apply iterencode_printable.
Qed.

End Printable.

Lemma build_database_printable_witness :
  exists text,
    Os.read (fst (build Sample.good_env Sample.app_ctx Sample.built_fs))
            (database_path Sample.app_ctx) = Some text /\
    all_printable text = true.
Proof.
  apply (build_database_printable Sample.good_env Sample.app_ctx
           Sample.built_fs).
  vm_compute. reflexivity.
Defined.

(** ** When generation returns *)

Section GenerationReturns.

Variable env : Env.

Lemma database_entry_ok_inv (o : string * string * string) (j : Json.value) :
  database_entry env o = Ok j -> exists root, main_file env = FilePath root.
Proof.
  unfold database_entry, root_dir.
  destruct (main_file env) as [| |root]; try discriminate. eauto.
Qed.

(** X19: [build] returns exactly when every scan exits with status 0,
    both files can be opened and, unless there is no source at all, the
    entry script has a path. *)
Theorem build_returns_iff (ctx : Context) (fs : FS) :
  snd (build env ctx fs) = Ok tt <->
  (scans_succeed env ctx /\
   can_open_w fs "Makefile" /\
   can_open_w fs (database_path ctx) /\
   (_sources ctx = [] \/ exists root, main_file env = FilePath root)).
Proof.
  split.
  - intros H. destruct (build env ctx fs) as [fs1 r] eqn:Hb.
    cbn [snd] in H. subst r.
    destruct (build_inv env ctx fs fs1 Hb)
      as (objects & data & Hobj & Hdata & Hmk & Hdb).
    assert (Hscan : scans_succeed env ctx).
    { intros s Hs. destruct (comprehension_inv _ _ _ Hobj s Hs) as [o Ho].
      exact (mk_object_inv env ctx s o Ho). }
    repeat split; try assumption.
    pose proof (objects_of_sources env ctx Hscan) as Hobj'.
    rewrite Hobj in Hobj'. injection Hobj' as ->.
    destruct (_sources ctx) as [|s l]; [left; reflexivity|right].
    cbn [List.map] in Hdata.
    destruct (comprehension_inv _ _ _ Hdata _ (or_introl eq_refl)) as [j Hj].
    exact (database_entry_ok_inv _ j Hj).
  - intros (Hscan & Hmk & Hdb & Hroot).
    destruct Hroot as [Hsrc|[root Hroot]].
    + rewrite (build_run env ctx fs [] []); try assumption; try reflexivity.
      rewrite Hsrc. reflexivity.
    + rewrite (build_run env ctx fs _ _ (objects_of_sources env ctx Hscan)
                 (data_of_sources env ctx root Hroot) Hmk Hdb).
      reflexivity.
Qed.

End GenerationReturns.
